(** * Knowledge store replication and API search orchestration

    A shallow embedding of
    - [src/main/services/KnowledgeStoreService.ts]   (the store replica),
    - [src/renderer/src/services/KnowledgeStoreSyncService.ts] (the owner-side
      sync controller and its change fingerprint),
    - [src/main/apiServer/services/knowledge.ts]     (the query orchestrator),
    - the zod schema [ApiKnowledgeSearchSchema] of the API request types.

    Conventions.
    - A JS string is a [string]: a sequence of code units, here restricted to
      the code units below 256.
    - A JS number that counts or stamps something (document counts, [top_k],
      versions, millisecond timestamps) is an [N]; a score or a threshold is
      an IEEE-754 binary64 [float], as in JS.
    - An optional property ([p?: T], [T | undefined], [T | null]) is an
      [option T].
    - A JS [Map] is an insertion-ordered association list. *)

From Stdlib Require Import List String Ascii NArith Bool Arith Lia.
From Stdlib Require Import Permutation Sorted DecimalString PrimFloat.
Import ListNotations.

Set Warnings "-inexact-float,-notation-for-abbreviation".

Local Open Scope string_scope.
Local Open Scope list_scope.

(* ========================================================================= *)
(** * Part I: the program *)

(* ------------------------------------------------------------------------- *)
(** ** JS built-ins used by the sources *)

Module Js.

(** Truthiness of a string: every string but the empty one. *)
Definition truthy (s : string) : bool := negb (String.eqb s "").

(** [Array.prototype.join] on an array of strings. *)
Definition join (sep : string) (l : list string) : string := String.concat sep l.

(** [String(n)] for a non-negative integer: its decimal digits. *)
Definition toString (n : N) : string := NilZero.string_of_uint (N.to_uint n).

(** Default [Array.prototype.sort]: ascending by code units, stable. *)
Fixpoint insert (x : string) (l : list string) : list string :=
  match l with
  | [] => [x]
  | y :: l' => if String.leb x y then x :: y :: l' else y :: insert x l'
  end.

Fixpoint sort (l : list string) : list string :=
  match l with
  | [] => []
  | x :: l' => insert x (sort l')
  end.

(** WhiteSpace and LineTerminator code units below 256:
    TAB, LF, VT, FF, CR, SP and NBSP. *)
Definition isWhiteSpace (c : ascii) : bool :=
  let n := nat_of_ascii c in
  ((9 <=? n) && (n <=? 13) || (n =? 32) || (n =? 160))%nat.

Fixpoint trimStart (s : string) : string :=
  match s with
  | EmptyString => EmptyString
  | String c s' => if isWhiteSpace c then trimStart s' else s
  end.

Fixpoint trimEnd (s : string) : string :=
  match s with
  | EmptyString => EmptyString
  | String c s' =>
      match trimEnd s' with
      | EmptyString => if isWhiteSpace c then EmptyString else String c EmptyString
      | t => String c t
      end
  end.

(** [String.prototype.trim]. *)
Definition trim (s : string) : string := trimEnd (trimStart s).

(** [a >= b] on numbers (false as soon as one side is NaN). *)
Definition geb (a b : float) : bool := PrimFloat.leb b a.

(** [Array.prototype.slice(0, n)] for a non-negative integer [n]. *)
Definition slice0 {A : Type} (n : N) (l : list A) : list A := firstn (N.to_nat n) l.

End Js.

(* ------------------------------------------------------------------------- *)
(** ** Shared data model ([@types]) *)

Module Types.

(** [KnowledgeBaseSummary['model']]: the five fields [pickModel] keeps. *)
Record ModelSummary : Type := mkModelSummary {
  ms_id : string;
  ms_name : string;
  ms_provider : string;
  ms_group : string;
  ms_description : option string
}.

Record KnowledgeBaseSummary : Type := mkSummary {
  id : string;
  name : string;
  description : option string;
  dimensions : option N;
  documentCount : option N;
  chunkSize : option N;
  chunkOverlap : option N;
  threshold : option float;
  created_at : N;
  updated_at : N;
  version : N;
  preprocessProvider : option string;
  model : ModelSummary;
  rerankModel : option ModelSummary
}.

(** [ApiClient], as the payload of the service test spells it. *)
Record ApiClient : Type := mkApiClient {
  ac_provider : string;
  ac_model : string;
  ac_apiKey : string;
  ac_baseURL : string
}.

Record KnowledgeBaseParams : Type := mkParams {
  params_id : string;
  embedApiClient : ApiClient;
  rerankApiClient : option ApiClient
}.

Record KnowledgeBaseSyncPayload : Type := mkSyncPayload {
  metadata : KnowledgeBaseSummary;
  params : KnowledgeBaseParams
}.

(** [KnowledgeSearchResult]: content fragment, score, opaque source metadata. *)
Record KnowledgeSearchResult : Type := mkResult {
  pageContent : string;
  score : float;
  result_metadata : string
}.

End Types.
Import Types.

(* ------------------------------------------------------------------------- *)
(** ** JS [Map<string, V>]

    Iteration follows insertion order; [set] on an existing key keeps the
    key's position and replaces its value. *)

Module JsMap.

Definition t (V : Type) : Type := list (string * V).

Definition empty {V : Type} : t V := [].

Fixpoint set {V : Type} (k : string) (v : V) (m : t V) : t V :=
  match m with
  | [] => [(k, v)]
  | (k', v') :: m' =>
      if String.eqb k' k then (k, v) :: m' else (k', v') :: set k v m'
  end.

Fixpoint get {V : Type} (k : string) (m : t V) : option V :=
  match m with
  | [] => None
  | (k', v') :: m' => if String.eqb k' k then Some v' else get k m'
  end.

Definition values {V : Type} (m : t V) : list V := map snd m.

Definition keys {V : Type} (m : t V) : list string := map fst m.

Definition size {V : Type} (m : t V) : nat := List.length m.

End JsMap.

(* ------------------------------------------------------------------------- *)
(** ** The store replica: [KnowledgeStoreService] *)

Module Store.

Record KnowledgeStoreService : Type := mkStore {
  bases : JsMap.t KnowledgeBaseSyncPayload;
  isActive : bool;
  lastSyncedAt : option N
}.

(** Field initialisers of the class. *)
Definition initial : KnowledgeStoreService :=
  {| bases := JsMap.empty; isActive := false; lastSyncedAt := None |}.

(** Messages sent to the renderer through [mainWindow.webContents.send]. *)
Inductive IpcMessage : Type :=
| KnowledgeStore_RequestSync
| KnowledgeStore_StopSync.

(** [requestSyncFromRenderer]; [mainWindow] tells whether
    [windowService.getMainWindow()] returned a window. *)
Definition requestSyncFromRenderer (mainWindow : bool) : list IpcMessage :=
  if mainWindow then [KnowledgeStore_RequestSync] else [].

Definition sendStopSignal (mainWindow : bool) : list IpcMessage :=
  if mainWindow then [KnowledgeStore_StopSync] else [].

Definition startSync (mainWindow : bool) (s : KnowledgeStoreService)
  : KnowledgeStoreService * list IpcMessage :=
  if isActive s then (s, requestSyncFromRenderer mainWindow)
  else ({| bases := bases s; isActive := true; lastSyncedAt := lastSyncedAt s |},
        requestSyncFromRenderer mainWindow).

Definition stopSync (mainWindow : bool) (s : KnowledgeStoreService)
  : KnowledgeStoreService * list IpcMessage :=
  if negb (isActive s) then (s, [])
  else ({| bases := JsMap.empty; isActive := false; lastSyncedAt := None |},
        sendStopSignal mainWindow).

(** The response object [{ accepted, syncedAt? }]. *)
Record SyncResponse : Type := mkSyncResponse {
  accepted : bool;
  syncedAt : option N
}.

(** The [for (const entry of payload) this.bases.set(...)] loop. *)
Definition setAll (payload : list KnowledgeBaseSyncPayload)
  (m : JsMap.t KnowledgeBaseSyncPayload) : JsMap.t KnowledgeBaseSyncPayload :=
  fold_left (fun acc entry => JsMap.set (id (metadata entry)) entry acc) payload m.

(** [handleSyncPayload]; [now] is the value of [Date.now()]. *)
Definition handleSyncPayload (now : N) (payload : list KnowledgeBaseSyncPayload)
  (s : KnowledgeStoreService) : KnowledgeStoreService * SyncResponse :=
  if negb (isActive s) then (s, {| accepted := false; syncedAt := None |})
  else
    let s' := {| bases := setAll payload JsMap.empty;
                 isActive := isActive s;
                 lastSyncedAt := Some now |} in
    (s', {| accepted := true; syncedAt := lastSyncedAt s' |}).

Definition getBases (s : KnowledgeStoreService) : list KnowledgeBaseSummary :=
  map metadata (JsMap.values (bases s)).

Definition getBase (i : string) (s : KnowledgeStoreService)
  : option KnowledgeBaseSyncPayload :=
  JsMap.get i (bases s).

Definition getBaseParams (i : string) (s : KnowledgeStoreService)
  : option KnowledgeBaseParams :=
  option_map params (JsMap.get i (bases s)).

Definition hasBases (s : KnowledgeStoreService) : bool :=
  (0 <? JsMap.size (bases s))%nat.

Definition isSyncActive (s : KnowledgeStoreService) : bool := isActive s.

Definition getLastSyncedAt (s : KnowledgeStoreService) : option N :=
  lastSyncedAt s.

(** The public and IPC entry points, as a labelled transition system. *)
Inductive op : Type :=
| OpStartSync (mainWindow : bool)
| OpStopSync (mainWindow : bool)
| OpSyncBases (now : N) (payload : list KnowledgeBaseSyncPayload).

Definition step (o : op) (s : KnowledgeStoreService) : KnowledgeStoreService :=
  match o with
  | OpStartSync w => fst (startSync w s)
  | OpStopSync w => fst (stopSync w s)
  | OpSyncBases now payload => fst (handleSyncPayload now payload s)
  end.

Inductive reachable : KnowledgeStoreService -> Prop :=
| reach_initial : reachable initial
| reach_step o s : reachable s -> reachable (step o s).

(** Inactive implies nothing stored and nothing stamped. *)
Definition inactive_is_empty (s : KnowledgeStoreService) : Prop :=
  isActive s = false -> bases s = JsMap.empty /\ lastSyncedAt s = None.

End Store.

(* ------------------------------------------------------------------------- *)
(** ** The owner-side controller: [KnowledgeStoreSyncService] *)

Module Sync.

(** The renderer's [Model]; [pickModel] reads these five fields. *)
Record Model : Type := mkModel {
  m_id : string;
  m_name : string;
  m_provider : string;
  m_group : string;
  m_description : option string
}.

Record KnowledgeItem : Type := mkItem { item_id : string }.

(** The renderer's [KnowledgeBase] entity: what [toSummary] and
    [computeSignature] read. *)
Record KnowledgeBase : Type := mkBase {
  kb_id : string;
  kb_name : string;
  kb_description : option string;
  kb_dimensions : option N;
  kb_documentCount : option N;
  kb_chunkSize : option N;
  kb_chunkOverlap : option N;
  kb_threshold : option float;
  kb_created_at : N;
  kb_updated_at : N;
  kb_version : N;
  kb_preprocessProvider : option string;
  kb_model : Model;
  kb_rerankModel : option Model;
  kb_items : option (list KnowledgeItem)
}.

(** [state.settings.apiServer]. *)
Record ApiServerSettings : Type := mkApiServer {
  knowledgeBaseIds : option (list string)
}.

(** The part of the redux [RootState] the service reads:
    [state.knowledge.bases] and [state.settings.apiServer]. *)
Record RootState : Type := mkRootState {
  knowledge_bases : option (list KnowledgeBase);
  settings_apiServer : option ApiServerSettings
}.

Inductive SyncReason : Type := initial | refresh | update.

Definition getSelectedKnowledgeBaseIds (state : RootState) : list string :=
  let ids :=
    match settings_apiServer state with
    | Some api => match knowledgeBaseIds api with Some l => l | None => [] end
    | None => []
    end in
  filter Js.truthy ids.

(** [new Set(selectedIds).has(i)]. *)
Definition Set_has (selectedIds : list string) (i : string) : bool :=
  existsb (String.eqb i) selectedIds.

Definition filterBases (bases : list KnowledgeBase) (selectedIds : list string)
  : list KnowledgeBase :=
  if (List.length selectedIds =? 0)%nat then bases
  else filter (fun base => Set_has selectedIds (kb_id base)) bases.

(** The [state.knowledge.bases || []] read. *)
Definition stateBases (state : RootState) : list KnowledgeBase :=
  match knowledge_bases state with Some l => l | None => [] end.

(** The template literal of the [map] callback in [computeSignature]. *)
Definition baseSignature (base : KnowledgeBase) : string :=
  let itemCount :=
    match kb_items base with Some l => N.of_nat (List.length l) | None => 0%N end in
  kb_id base ++ ":" ++ Js.toString (kb_updated_at base) ++ ":" ++
  Js.toString (kb_version base) ++ ":" ++ Js.toString itemCount.

Definition computeSignature (state : RootState) : string :=
  let bases := stateBases state in
  let selectedIds := getSelectedKnowledgeBaseIds state in
  let filteredBases := filterBases bases selectedIds in
  let selectionSignature :=
    if (0 <? List.length selectedIds)%nat
    then Js.join "," (Js.sort selectedIds) else "ALL" in
  if (List.length filteredBases =? 0)%nat then selectionSignature ++ "#EMPTY"
  else selectionSignature ++ "#" ++ Js.join "|" (map baseSignature filteredBases).

Definition pickModel (m : Model) : ModelSummary :=
  {| ms_id := m_id m;
     ms_name := m_name m;
     ms_provider := m_provider m;
     ms_group := m_group m;
     ms_description := m_description m |}.

Definition toSummary (base : KnowledgeBase) : KnowledgeBaseSummary :=
  {| id := kb_id base;
     name := kb_name base;
     description := kb_description base;
     dimensions := kb_dimensions base;
     documentCount := kb_documentCount base;
     chunkSize := kb_chunkSize base;
     chunkOverlap := kb_chunkOverlap base;
     threshold := kb_threshold base;
     created_at := kb_created_at base;
     updated_at := kb_updated_at base;
     version := kb_version base;
     preprocessProvider := kb_preprocessProvider base;
     model := pickModel (kb_model base);
     rerankModel := option_map pickModel (kb_rerankModel base) |}.

(** The identifiers [buildPayload] reports in its warning. *)
Definition missingSelected (state : RootState) : list string :=
  let bases := stateBases state in
  filter (fun i => negb (existsb (fun base => String.eqb (kb_id base) i) bases))
         (getSelectedKnowledgeBaseIds state).

Section Controller.

(** [getKnowledgeBaseParams] of [./KnowledgeService], which is not part of the
    sources at hand. *)
Variable getKnowledgeBaseParams : KnowledgeBase -> KnowledgeBaseParams.

(** Whether [window.api?.knowledgeStore] is there. *)
Variable bridge : bool.

Definition buildPayload (state : RootState) : list KnowledgeBaseSyncPayload :=
  let bases := stateBases state in
  let selectedIds := getSelectedKnowledgeBaseIds state in
  let filteredBases := filterBases bases selectedIds in
  map (fun base => {| metadata := toSummary base;
                      params := getKnowledgeBaseParams base |}) filteredBases.

(** The private fields of the class; [unsubscribe] tells whether the
    subscription handle is set, that is whether the listener is registered
    with the store. *)
Record KnowledgeStoreSyncService : Type := mkService {
  isSyncing : bool;
  hasInitialized : bool;
  unsubscribe : bool;
  lastSignature : option string
}.

Definition fresh : KnowledgeStoreSyncService :=
  {| isSyncing := false; hasInitialized := false;
     unsubscribe := false; lastSignature := None |}.

(** One [window.api.knowledgeStore.syncBases(payload)] call. *)
Record Push : Type := mkPush {
  push_reason : SyncReason;
  push_payload : list KnowledgeBaseSyncPayload
}.

(** [pushCurrentBases], up to the IPC call it issues. *)
Definition pushCurrentBases (state : RootState) (reason : SyncReason)
  (c : KnowledgeStoreSyncService) : list Push :=
  if negb (isSyncing c) || negb bridge then []
  else [ {| push_reason := reason; push_payload := buildPayload state |} ].

Definition same_signature (signature : string) (last : option string) : bool :=
  match last with
  | Some l => String.eqb signature l
  | None => false
  end.

(** The callback handed to [store.subscribe], run after a mutation has
    brought the store to [state]. *)
Definition listener (state : RootState) (c : KnowledgeStoreSyncService)
  : KnowledgeStoreSyncService * list Push :=
  if negb (isSyncing c) then (c, [])
  else
    let signature := computeSignature state in
    if same_signature signature (lastSignature c) then (c, [])
    else
      let c' := {| isSyncing := isSyncing c;
                   hasInitialized := hasInitialized c;
                   unsubscribe := unsubscribe c;
                   lastSignature := Some signature |} in
      (c', pushCurrentBases state update c').

Definition startSync (state : RootState) (reason : SyncReason)
  (c : KnowledgeStoreSyncService) : KnowledgeStoreSyncService * list Push :=
  if isSyncing c then (c, pushCurrentBases state refresh c)
  else
    let c' := {| isSyncing := true;
                 hasInitialized := hasInitialized c;
                 unsubscribe := true;
                 lastSignature := Some (computeSignature state) |} in
    (c', pushCurrentBases state reason c').

Definition stopSync (c : KnowledgeStoreSyncService) : KnowledgeStoreSyncService :=
  {| isSyncing := false;
     hasInitialized := hasInitialized c;
     unsubscribe := false;
     lastSignature := None |}.

(** [init]; the second component tells whether the two IPC callbacks were
    registered on the bridge. *)
Definition init (c : KnowledgeStoreSyncService) : KnowledgeStoreSyncService * bool :=
  if hasInitialized c then (c, false)
  else ({| isSyncing := isSyncing c;
           hasInitialized := true;
           unsubscribe := unsubscribe c;
           lastSignature := lastSignature c |}, bridge).

(** What reaches the controller: the two IPC signals its [init] listens to,
    and a store mutation that leaves the store in [state]. *)
Inductive event : Type :=
| RequestSync
| StopSignal
| Mutation (state : RootState).

(** The renderer around the controller: the store's current state and the
    controller. *)
Record Renderer : Type := mkRenderer {
  store : RootState;
  service : KnowledgeStoreSyncService
}.

Definition dispatch (e : event) (r : Renderer) : Renderer * list Push :=
  match e with
  | RequestSync =>
      let '(c', out) := startSync (store r) initial (service r) in
      ({| store := store r; service := c' |}, out)
  | StopSignal =>
      ({| store := store r; service := stopSync (service r) |}, [])
  | Mutation state =>
      if unsubscribe (service r) then
        let '(c', out) := listener state (service r) in
        ({| store := state; service := c' |}, out)
      else ({| store := state; service := service r |}, [])
  end.

Fixpoint run (es : list event) (r : Renderer) : Renderer * list Push :=
  match es with
  | [] => (r, [])
  | e :: es' =>
      let '(r1, out1) := dispatch e r in
      let '(r2, out2) := run es' r1 in
      (r2, out1 ++ out2)
  end.

End Controller.

End Sync.

(* ------------------------------------------------------------------------- *)
(** ** The API request types and their zod schema *)

Module Api.

Record ApiKnowledgeSearchRequest : Type := mkRequest {
  query : string;
  knowledge_base_ids : list string;
  rewrite : option string;
  threshold : option float;
  top_k : option N
}.

Record ApiKnowledgeSearchResponseItem : Type := mkItem {
  knowledge_base_id : string;
  knowledge_base_name : string;
  results : list KnowledgeSearchResult
}.

(** [{ object: 'list', data }]. *)
Record ApiKnowledgeSearchResponse : Type := mkResponse {
  data : list ApiKnowledgeSearchResponseItem
}.

Definition opt_all {A : Type} (p : A -> bool) (o : option A) : bool :=
  match o with Some a => p a | None => true end.

Definition within (lo hi : nat) (s : string) : bool :=
  ((lo <=? String.length s) && (String.length s <=? hi))%nat.

(** [ApiKnowledgeSearchSchema]; [MAX_KNOWLEDGE_TOP_K] comes from
    [@shared/config/knowledge]. *)
Definition ApiKnowledgeSearchSchema (MAX_KNOWLEDGE_TOP_K : N)
  (p : ApiKnowledgeSearchRequest) : bool :=
  within 1 2000 (query p)
  && forallb (fun i => (1 <=? String.length i)%nat) (knowledge_base_ids p)
  && (1 <=? List.length (knowledge_base_ids p))%nat
  && opt_all (within 1 2000) (rewrite p)
  && opt_all (fun t => PrimFloat.leb 0 t && PrimFloat.leb t 1) (threshold p)
  && opt_all (fun k => (0 <? k)%N && (k <=? MAX_KNOWLEDGE_TOP_K)%N) (top_k p).

End Api.

(* ------------------------------------------------------------------------- *)
(** ** The query orchestrator: [ApiKnowledgeService] *)

Module Search.
Import Api.

(** What [search] throws itself, and what a collaborator threw. *)
Inductive failure (exn : Type) : Type :=
| StoreNotReady
| NoMatchingBases
| CollaboratorError (e : exn).
Arguments StoreNotReady {exn}.
Arguments NoMatchingBases {exn}.
Arguments CollaboratorError {exn} e.

(** The messages of the two [Error]s of [search]. *)
Definition message {exn : Type} (f : failure exn) : option string :=
  match f with
  | StoreNotReady =>
      Some "Knowledge store is not ready. Please wait for synchronization to complete."
  | NoMatchingBases => Some "No matching knowledge bases found for provided ids."
  | CollaboratorError _ => None
  end.

Section Orchestrator.

(** The constants of [@shared/config/knowledge]. *)
Variable DEFAULT_KNOWLEDGE_DOCUMENT_COUNT : N.
Variable DEFAULT_KNOWLEDGE_THRESHOLD : float.
Variable MAX_KNOWLEDGE_TOP_K : N.

(** The collaborators. [World] is whatever they depend on and change (the
    vector stores, the network); each call returns its results or throws. *)
Variable World : Type.
Variable exn : Type.
Variable KnowledgeService_search :
  World -> string -> KnowledgeBaseParams -> (exn + list KnowledgeSearchResult) * World.
Variable KnowledgeService_rerank :
  World -> string -> KnowledgeBaseParams -> list KnowledgeSearchResult ->
  (exn + list KnowledgeSearchResult) * World.

(** A call of [KnowledgeService.search] or [KnowledgeService.rerank]: the
    [search], [base] and [results] it was given, and what came back. *)
Inductive call : Type :=
| SearchCall (search : string) (base : KnowledgeBaseParams)
             (returned : exn + list KnowledgeSearchResult)
| RerankCall (search : string) (base : KnowledgeBaseParams)
             (results : list KnowledgeSearchResult)
             (returned : exn + list KnowledgeSearchResult).

(** The collaborators' world and the calls made so far, oldest first. *)
Record Heap : Type := mkHeap {
  world : World;
  calls : list call
}.

(** Computations that may throw and that call collaborators. *)
Definition M (A : Type) : Type := Heap -> (failure exn + A) * Heap.

Definition ret {A : Type} (a : A) : M A := fun h => (inr a, h).

Definition throw {A : Type} (f : failure exn) : M A := fun h => (inl f, h).

Definition bind {A B : Type} (m : M A) (k : A -> M B) : M B :=
  fun h =>
    match m h with
    | (inl f, h') => (inl f, h')
    | (inr a, h') => k a h'
    end.

Notation "x <- m ;; k" := (bind m (fun x => k))
  (at level 61, m at next level, right associativity).

Definition lift_outcome (r : exn + list KnowledgeSearchResult)
  : failure exn + list KnowledgeSearchResult :=
  match r with
  | inl e => inl (CollaboratorError e)
  | inr l => inr l
  end.

(** [await KnowledgeService.search(null, { search, base })]. *)
Definition await_search (search : string) (base : KnowledgeBaseParams)
  : M (list KnowledgeSearchResult) :=
  fun h =>
    let '(r, w) := KnowledgeService_search (world h) search base in
    (lift_outcome r,
     {| world := w; calls := calls h ++ [SearchCall search base r] |}).

(** [await KnowledgeService.rerank(null, { search, base, results })]. *)
Definition await_rerank (search : string) (base : KnowledgeBaseParams)
  (results : list KnowledgeSearchResult) : M (list KnowledgeSearchResult) :=
  fun h =>
    let '(r, w) := KnowledgeService_rerank (world h) search base results in
    (lift_outcome r,
     {| world := w; calls := calls h ++ [RerankCall search base results r] |}).

(** [payload.rewrite?.trim() ? payload.rewrite : payload.query]. *)
Definition searchQuery (payload : ApiKnowledgeSearchRequest) : string :=
  match rewrite payload with
  | Some r => if Js.truthy (Js.trim r) then r else query payload
  | None => query payload
  end.

(** [payload.top_k ? Math.min(payload.top_k, MAX_KNOWLEDGE_TOP_K) : undefined]. *)
Definition limitOverride (payload : ApiKnowledgeSearchRequest) : option N :=
  match top_k payload with
  | Some k => if (k =? 0)%N then None else Some (N.min k MAX_KNOWLEDGE_TOP_K)
  | None => None
  end.

(** [a ?? b]. *)
Definition nullish {A : Type} (a : option A) (b : A) : A :=
  match a with Some x => x | None => b end.

Definition nullish_opt {A : Type} (a b : option A) : option A :=
  match a with Some x => Some x | None => b end.

Definition allowedResults (payload : ApiKnowledgeSearchRequest)
  (request : KnowledgeBaseSyncPayload) : N :=
  nullish (nullish_opt (limitOverride payload) (documentCount (metadata request)))
          DEFAULT_KNOWLEDGE_DOCUMENT_COUNT.

Definition threshold (payload : ApiKnowledgeSearchRequest)
  (request : KnowledgeBaseSyncPayload) : float :=
  nullish (nullish_opt (Api.threshold payload) (Types.threshold (metadata request)))
          DEFAULT_KNOWLEDGE_THRESHOLD.

(** [ragResults.filter((item) => item.score >= threshold)]. *)
Definition filtered (payload : ApiKnowledgeSearchRequest)
  (request : KnowledgeBaseSyncPayload) (ragResults : list KnowledgeSearchResult)
  : list KnowledgeSearchResult :=
  filter (fun item => Js.geb (score item) (threshold payload request)) ragResults.

(** Truthiness of [request.params.rerankApiClient?.model]. *)
Definition rerankModelSet (request : KnowledgeBaseSyncPayload) : bool :=
  match rerankApiClient (params request) with
  | Some client => Js.truthy (ac_model client)
  | None => false
  end.

(** The guard [filtered.length > 0 && request.params.rerankApiClient?.model]. *)
Definition shouldRerank (request : KnowledgeBaseSyncPayload)
  (fl : list KnowledgeSearchResult) : bool :=
  (0 <? List.length fl)%nat && rerankModelSet request.

(** The body of the [for (const request of requests)] loop: the item it
    pushes onto [results]. *)
Definition searchBase (payload : ApiKnowledgeSearchRequest)
  (request : KnowledgeBaseSyncPayload) : M ApiKnowledgeSearchResponseItem :=
  ragResults <- await_search (searchQuery payload) (params request) ;;
  let fl := filtered payload request ragResults in
  ranked <- (if shouldRerank request fl
             then await_rerank (searchQuery payload) (params request) fl
             else ret fl) ;;
  ret {| knowledge_base_id := id (metadata request);
         knowledge_base_name := name (metadata request);
         results := Js.slice0 (allowedResults payload request) ranked |}.

(** The loop itself. *)
Fixpoint forEach (payload : ApiKnowledgeSearchRequest)
  (requests : list KnowledgeBaseSyncPayload) : M (list ApiKnowledgeSearchResponseItem) :=
  match requests with
  | [] => ret []
  | request :: rest =>
      item <- searchBase payload request ;;
      items <- forEach payload rest ;;
      ret (item :: items)
  end.

(** [payload.knowledge_base_ids.map(getBase).filter(Boolean)]. *)
Fixpoint resolve (s : Store.KnowledgeStoreService) (ids : list string)
  : list KnowledgeBaseSyncPayload :=
  match ids with
  | [] => []
  | i :: ids' =>
      match Store.getBase i s with
      | Some entry => entry :: resolve s ids'
      | None => resolve s ids'
      end
  end.

Definition search (s : Store.KnowledgeStoreService)
  (payload : ApiKnowledgeSearchRequest) : M ApiKnowledgeSearchResponse :=
  if negb (Store.isSyncActive s) || negb (Store.hasBases s) then throw StoreNotReady
  else
    let requests := resolve s (knowledge_base_ids payload) in
    if (List.length requests =? 0)%nat then throw NoMatchingBases
    else
      results <- forEach payload requests ;;
      ret {| data := results |}.

End Orchestrator.

Arguments SearchCall {exn} search base returned.
Arguments RerankCall {exn} search base results returned.
Arguments mkHeap {World exn} world calls.
Arguments world {World exn} h.
Arguments calls {World exn} h.

End Search.

(* ------------------------------------------------------------------------- *)
(** ** Sample data, after the payload of [KnowledgeStoreService.test.ts] *)

Module Sample.

Definition summaryModel : ModelSummary :=
  {| ms_id := "model-1"; ms_name := "Test"; ms_provider := "openai";
     ms_group := "default"; ms_description := Some EmptyString |}.

Definition summary (i n : string) (count : option N) (thr : option float)
  : KnowledgeBaseSummary :=
  {| id := i; name := n; description := Some EmptyString;
     dimensions := Some 1536%N; documentCount := count;
     chunkSize := Some 512%N; chunkOverlap := Some 128%N;
     threshold := thr;
     created_at := 1700000000000%N; updated_at := 1700000000000%N;
     version := 1%N; preprocessProvider := None;
     model := summaryModel; rerankModel := None |}.

Definition embedClient : ApiClient :=
  {| ac_provider := "openai"; ac_model := "text-embedding-3-small";
     ac_apiKey := "secret"; ac_baseURL := "https://api.openai.com" |}.

Definition rerankClient (m : string) : ApiClient :=
  {| ac_provider := "jina"; ac_model := m;
     ac_apiKey := "secret"; ac_baseURL := "https://api.jina.ai" |}.

Definition entry (i n : string) (count : option N) (thr : option float)
  (rerank : option ApiClient) : KnowledgeBaseSyncPayload :=
  {| metadata := summary i n count thr;
     params := {| params_id := i; embedApiClient := embedClient;
                  rerankApiClient := rerank |} |}.

(** The [kb-1] entry of the test. *)
Definition kb1 : KnowledgeBaseSyncPayload :=
  entry "kb-1" "Docs" (Some 10%N) (Some 0.1%float) None.

Definition kb2 : KnowledgeBaseSyncPayload :=
  entry "kb-2" "Notes" (Some 5%N) None None.

(** A second entry under the identifier of [kb1]. *)
Definition kb1' : KnowledgeBaseSyncPayload :=
  entry "kb-1" "Docs (renamed)" (Some 10%N) (Some 0.1%float) None.

Definition activeStore (entries : list KnowledgeBaseSyncPayload)
  : Store.KnowledgeStoreService :=
  {| Store.bases := Store.setAll entries JsMap.empty;
     Store.isActive := true;
     Store.lastSyncedAt := Some 1700000000001%N |}.

Definition ownerModel : Sync.Model :=
  {| Sync.m_id := "model-1"; Sync.m_name := "Test"; Sync.m_provider := "openai";
     Sync.m_group := "default"; Sync.m_description := None |}.

Definition ownerBase (i : string) (stamp ver : N)
  (items : option (list Sync.KnowledgeItem)) : Sync.KnowledgeBase :=
  {| Sync.kb_id := i; Sync.kb_name := i; Sync.kb_description := None;
     Sync.kb_dimensions := Some 1536%N; Sync.kb_documentCount := Some 6%N;
     Sync.kb_chunkSize := None; Sync.kb_chunkOverlap := None;
     Sync.kb_threshold := None;
     Sync.kb_created_at := 1700000000000%N; Sync.kb_updated_at := stamp;
     Sync.kb_version := ver; Sync.kb_preprocessProvider := None;
     Sync.kb_model := ownerModel; Sync.kb_rerankModel := None;
     Sync.kb_items := items |}.

(** Live bases [a], [b], [c]. *)
Definition liveBases : list Sync.KnowledgeBase :=
  [ ownerBase "a" 1700000000100 1 None;
    ownerBase "b" 1700000000200 2 (Some []);
    ownerBase "c" 1700000000300 3
      (Some [ {| Sync.item_id := "i1" |}; {| Sync.item_id := "i2" |} ]) ].

Definition ownerState (allowList : list string) (bases : list Sync.KnowledgeBase)
  : Sync.RootState :=
  {| Sync.knowledge_bases := Some bases;
     Sync.settings_apiServer := Some {| Sync.knowledgeBaseIds := Some allowList |} |}.

(** A store whose slices were never filled. *)
Definition blankState : Sync.RootState :=
  {| Sync.knowledge_bases := None; Sync.settings_apiServer := None |}.

Definition ownerParams (b : Sync.KnowledgeBase) : KnowledgeBaseParams :=
  {| params_id := Sync.kb_id b; embedApiClient := embedClient;
     rerankApiClient := None |}.

End Sample.

(* ------------------------------------------------------------------------- *)
(** ** Sample collaborators and requests *)

Module Scenario.
Import Api Search.

(** [DEFAULT_KNOWLEDGE_DOCUMENT_COUNT], [DEFAULT_KNOWLEDGE_THRESHOLD] and
    [MAX_KNOWLEDGE_TOP_K] ([top_k] has maximum 30 in the OpenAPI document). *)
Definition defaultCount : N := 6.
Definition defaultThreshold : float := 0%float.
Definition maxTopK : N := 30.

Definition hit (content : string) (sc : float) : KnowledgeSearchResult :=
  {| pageContent := content; score := sc; result_metadata := "{}" |}.

(** Retrieval returns three results with scores 0.05, 0.2 and 0.9. *)
Definition hits : list KnowledgeSearchResult :=
  [hit "low" 0.05%float; hit "mid" 0.2%float; hit "high" 0.9%float].

Definition retrieve (w : unit) (q : string) (p : KnowledgeBaseParams)
  : (string + list KnowledgeSearchResult) * unit :=
  (inr hits, w).

(** A reranker that scores every result it is given anew, at 0.01. *)
Definition rescore (w : unit) (q : string) (p : KnowledgeBaseParams)
  (input : list KnowledgeSearchResult) : (string + list KnowledgeSearchResult) * unit :=
  (inr (map (fun r => hit (pageContent r) 0.01%float) input), w).

(** A reranker that reverses what it is given. *)
Definition reverse (w : unit) (q : string) (p : KnowledgeBaseParams)
  (input : list KnowledgeSearchResult) : (string + list KnowledgeSearchResult) * unit :=
  (inr (rev input), w).

Definition heap0 : Heap unit string := {| world := tt; calls := [] |}.

Definition request (ids : list string) (k : option N) : ApiKnowledgeSearchRequest :=
  {| query := "what is a knowledge base"; knowledge_base_ids := ids;
     rewrite := Some "  "; Api.threshold := None; top_k := k |}.

(** A base with a rerank model. *)
Definition kbRerank : KnowledgeBaseSyncPayload :=
  Sample.entry "kb-r" "Reranked" (Some 10%N) (Some 0.1%float)
    (Some (Sample.rerankClient "rerank-1")).

(** A base whose params carry a rerank client descriptor with no model. *)
Definition kbNoModel : KnowledgeBaseSyncPayload :=
  Sample.entry "kb-e" "Plain" (Some 10%N) (Some 0.1%float)
    (Some (Sample.rerankClient EmptyString)).

(** A base whose [documentCount] is 0. *)
Definition kbZero : KnowledgeBaseSyncPayload :=
  Sample.entry "kb-0" "Zero" (Some 0%N) (Some 0.1%float) None.

Definition run (rerank : unit -> string -> KnowledgeBaseParams ->
                         list KnowledgeSearchResult ->
                         (string + list KnowledgeSearchResult) * unit)
  (entries : list KnowledgeBaseSyncPayload) (payload : ApiKnowledgeSearchRequest)
  : (failure string + ApiKnowledgeSearchResponse) * Heap unit string :=
  search defaultCount defaultThreshold maxTopK unit string retrieve rerank
         (Sample.activeStore entries) payload heap0.

End Scenario.

(* ------------------------------------------------------------------------- *)
(** ** The change fingerprint, in the words of the specification *)

Module Fingerprint.
Import Sync.

(** The allow-list identifiers in lexicographic order joined by commas, the
    [ALL] sentinel when there is no allow-list. *)
Definition selectionSignature (allowList : list string) : string :=
  match allowList with
  | [] => "ALL"
  | _ => String.concat "," (Js.sort allowList)
  end.

(** The bases whose identifier is in the allow-list, all of them when the
    allow-list is empty, in their natural order. *)
Definition selectBases (allowList : list string) (bases : list KnowledgeBase)
  : list KnowledgeBase :=
  match allowList with
  | [] => bases
  | _ => filter (fun b => if in_dec string_dec (kb_id b) allowList then true else false)
                bases
  end.

Definition itemCount (b : KnowledgeBase) : nat :=
  match kb_items b with Some items => List.length items | None => 0 end.

(** [id:updatedAt:version:itemCount]. *)
Definition baseEntry (b : KnowledgeBase) : string :=
  String.concat ":"
    [kb_id b; Js.toString (kb_updated_at b); Js.toString (kb_version b);
     Js.toString (N.of_nat (itemCount b))].

Definition fingerprint (allowList : list string) (bases : list KnowledgeBase)
  : string :=
  selectionSignature allowList ++ "#" ++
  match selectBases allowList bases with
  | [] => "EMPTY"
  | selected => String.concat "|" (map baseEntry selected)
  end.

End Fingerprint.

(* ------------------------------------------------------------------------- *)
(** ** Notions the properties are stated with *)


(** [l] is [l'] with some elements left out, the others in their order. *)
Inductive subsequence {A : Type} : list A -> list A -> Prop :=
| subsequence_nil : subsequence [] []
| subsequence_keep x l l' : subsequence l l' -> subsequence (x :: l) (x :: l')
| subsequence_drop x l l' : subsequence l l' -> subsequence l (x :: l').


(** Ascending by code units. *)
Definition lex_le (a b : string) : Prop := String.leb a b = true.

Definition entry_id (e : KnowledgeBaseSyncPayload) : string := id (metadata e).

(** The entry a payload carries for an identifier: the last one with it. *)
Definition last_entry (payload : list KnowledgeBaseSyncPayload) (i : string)
  : option KnowledgeBaseSyncPayload :=
  find (fun e => String.eqb (entry_id e) i) (rev payload).

Section Served.
Import Api Search.

Variable DEFAULT_KNOWLEDGE_DOCUMENT_COUNT : N.
Variable DEFAULT_KNOWLEDGE_THRESHOLD : float.
Variable MAX_KNOWLEDGE_TOP_K : N.
Variable exn : Type.

(** The item the loop body pushes once [ranked] is known. *)
Definition itemOf (limit : N) (request : KnowledgeBaseSyncPayload)
  (ranked : list KnowledgeSearchResult) : ApiKnowledgeSearchResponseItem :=
  {| knowledge_base_id := id (metadata request);
     knowledge_base_name := name (metadata request);
     results := Js.slice0 limit ranked |}.

(** The rerank collaborator was not handed an empty sequence. *)
Definition rerankInputNonEmpty (c : call exn) : Prop :=
  match c with
  | RerankCall _ _ input _ => input <> []
  | SearchCall _ _ _ => True
  end.

(** What an item of the response owes to the calls in [log]: retrieval
    returned [ragResults]; the item holds the first [allowedResults] elements
    of [ranked], which is what rerank returned for the filtered results when
    the guard held, and the filtered results themselves otherwise. *)
Definition servedBy (payload : ApiKnowledgeSearchRequest) (log : list (call exn))
  (request : KnowledgeBaseSyncPayload) (item : ApiKnowledgeSearchResponseItem) : Prop :=
  exists ragResults ranked,
    let limit :=
      allowedResults DEFAULT_KNOWLEDGE_DOCUMENT_COUNT MAX_KNOWLEDGE_TOP_K
        payload request in
    let fl := filtered DEFAULT_KNOWLEDGE_THRESHOLD payload request ragResults in
    In (SearchCall (searchQuery payload) (params request) (inr ragResults)) log
    /\ item = itemOf limit request ranked
    /\ if shouldRerank request fl
       then In (RerankCall (searchQuery payload) (params request) fl (inr ranked)) log
       else ranked = fl.

End Served.

Arguments rerankInputNonEmpty {exn} c.
Arguments servedBy DEFAULT_KNOWLEDGE_DOCUMENT_COUNT DEFAULT_KNOWLEDGE_THRESHOLD
  MAX_KNOWLEDGE_TOP_K {exn} payload log request item.

(* ------------------------------------------------------------------------- *)
(** ** The listing of [ApiKnowledgeService] and the knowledge routes *)

Module JsText.

(** [String.prototype.includes]. *)
Fixpoint includes (s sub : string) : bool :=
  String.prefix sub s ||
  match s with
  | EmptyString => false
  | String _ s' => includes s' sub
  end.

End JsText.

Module Listing.

(** [{ object: 'list', data, total, syncedAt }]. *)
Record ApiKnowledgeBaseListResponse : Type := mkList {
  data : list KnowledgeBaseSummary;
  total : nat;
  syncedAt : option string
}.

(** The message of the [Error] of [listBases]. *)
Definition notReady : string :=
  "Knowledge store is not ready. Ensure the API server is running and knowledge is synced.".

Section WithDate.

(** [new Date(t).toISOString()]. *)
Variable toISOString : N -> string.

(** [listBases]; [inl] is the message of the [Error] it throws. *)
Definition listBases (s : Store.KnowledgeStoreService)
  : string + ApiKnowledgeBaseListResponse :=
  if negb (Store.isSyncActive s) || negb (Store.hasBases s) then inl notReady
  else
    let data := Store.getBases s in
    inr {| data := data;
           total := List.length data;
           syncedAt :=
             match Store.getLastSyncedAt s with
             | Some t => if (t =? 0)%N then None else Some (toISOString t)
             | None => None
             end |}.

End WithDate.

End Listing.

Module Routes.
Import Api Search.

(** The [error] object of a failure reply, without the [details] the 400
    reply adds from zod's issues. *)
Record ErrorBody : Type := mkError {
  error_message : string;
  error_type : string;
  error_code : string
}.

(** What a handler sends: [res.json(body)] has status 200,
    [res.status(n).json({ error })] has status [n]. *)
Record Reply (A : Type) : Type := mkReply {
  status : N;
  body : ErrorBody + A
}.
Arguments mkReply {A} status body.
Arguments status {A} r.
Arguments body {A} r.

(** The [GET /bases] handler. [listBases] throws an [Error] only. *)
Definition getBases (toISOString : N -> string) (s : Store.KnowledgeStoreService)
  : Reply Listing.ApiKnowledgeBaseListResponse :=
  match Listing.listBases toISOString s with
  | inr response => {| status := 200; body := inr response |}
  | inl msg =>
      {| status := 503;
         body := inl {| error_message := msg;
                        error_type := "service_unavailable";
                        error_code := "knowledge_store_unavailable" |} |}
  end.

Section SearchRoute.

Variable DEFAULT_KNOWLEDGE_DOCUMENT_COUNT : N.
Variable DEFAULT_KNOWLEDGE_THRESHOLD : float.
Variable MAX_KNOWLEDGE_TOP_K : N.
Variable World : Type.
Variable exn : Type.
Variable KnowledgeService_search :
  World -> string -> KnowledgeBaseParams -> (exn + list KnowledgeSearchResult) * World.
Variable KnowledgeService_rerank :
  World -> string -> KnowledgeBaseParams -> list KnowledgeSearchResult ->
  (exn + list KnowledgeSearchResult) * World.

(** The message of what a collaborator threw when it is an [Error], nothing
    when it is another value. *)
Variable errorMessage : exn -> option string.

(** [error instanceof Error], with [error.message]. *)
Definition thrownMessage (f : failure exn) : option string :=
  match f with
  | CollaboratorError e => errorMessage e
  | own => message own
  end.

Definition messageIncludes (msg : option string) (sub : string) : bool :=
  match msg with
  | Some m => JsText.includes m sub
  | None => false
  end.

(** The [catch] block of the [POST /search] handler. *)
Definition searchFailure (f : failure exn) : Reply ApiKnowledgeSearchResponse :=
  let msg := thrownMessage f in
  if messageIncludes msg "No matching knowledge bases" then
    {| status := 404;
       body := inl {| error_message := match msg with Some m => m | None => "" end;
                      error_type := "invalid_request_error";
                      error_code := "knowledge_base_not_found" |} |}
  else
    let unavailable := messageIncludes msg "not ready" in
    {| status := if unavailable then 503 else 500;
       body := inl {| error_message :=
                        match msg with
                        | Some m => m
                        | None => "Knowledge search failed due to an unexpected error"
                        end;
                      error_type :=
                        if unavailable then "service_unavailable" else "internal_error";
                      error_code :=
                        if unavailable then "knowledge_store_unavailable"
                        else "knowledge_search_failed" |} |}.

(** The [POST /search] handler, on a body that has the shape of a request. *)
Definition postSearch (s : Store.KnowledgeStoreService)
  (requestBody : ApiKnowledgeSearchRequest) (h : Heap World exn)
  : Reply ApiKnowledgeSearchResponse * Heap World exn :=
  if negb (ApiKnowledgeSearchSchema MAX_KNOWLEDGE_TOP_K requestBody) then
    ({| status := 400;
        body := inl {| error_message := "Invalid knowledge search request";
                       error_type := "invalid_request_error";
                       error_code := "invalid_parameters" |} |}, h)
  else
    match search DEFAULT_KNOWLEDGE_DOCUMENT_COUNT DEFAULT_KNOWLEDGE_THRESHOLD
            MAX_KNOWLEDGE_TOP_K World exn KnowledgeService_search
            KnowledgeService_rerank s requestBody h with
    | (inr response, h') => ({| status := 200; body := inr response |}, h')
    | (inl f, h') => (searchFailure f, h')
    end.

End SearchRoute.

End Routes.

(* ------------------------------------------------------------------------- *)
(** ** More notions the properties are stated with *)

(** Every entry of the map sits under the identifier of its metadata, and no
    key occurs twice. *)
Definition keyedById (m : JsMap.t KnowledgeBaseSyncPayload) : Prop :=
  NoDup (JsMap.keys m) /\ Forall (fun kv => fst kv = entry_id (snd kv)) m.

(** Successive calls of [init], each told whether the bridge is there: the
    controller they leave and the number of calls that registered callbacks. *)
Fixpoint initAll (bridges : list bool) (c : Sync.KnowledgeStoreSyncService)
  : Sync.KnowledgeStoreSyncService * nat :=
  match bridges with
  | [] => (c, 0)
  | bridge :: rest =>
      let '(c1, registered) := Sync.init bridge c in
      let '(c2, n) := initAll rest c1 in
      (c2, (if registered then 1 else 0) + n)
  end.

(** The states of a burst of mutations at which the signature differs from
    the one before, [last] being the signature before the burst. *)
Fixpoint signatureChanges (last : string) (states : list Sync.RootState)
  : list Sync.RootState :=
  match states with
  | [] => []
  | state :: rest =>
      if String.eqb (Sync.computeSignature state) last
      then signatureChanges last rest
      else state :: signatureChanges (Sync.computeSignature state) rest
  end.

(** What the signature reads of a base. *)
Definition sameStamp (b1 b2 : Sync.KnowledgeBase) : Prop :=
  Sync.kb_id b1 = Sync.kb_id b2
  /\ Sync.kb_updated_at b1 = Sync.kb_updated_at b2
  /\ Sync.kb_version b1 = Sync.kb_version b2
  /\ Fingerprint.itemCount b1 = Fingerprint.itemCount b2.

Definition isRequestSync (e : Sync.event) : bool :=
  match e with Sync.RequestSync => true | _ => false end.

Definition isMutation (e : Sync.event) : bool :=
  match e with Sync.Mutation _ => true | _ => false end.

Definition isUpdate (p : Sync.Push) : bool :=
  match Sync.push_reason p with Sync.update => true | _ => false end.

Definition isSearchCall {exn : Type} (c : Search.call exn) : bool :=
  match c with Search.SearchCall _ _ _ => true | Search.RerankCall _ _ _ _ => false end.

(** What a call returned. *)
Definition returned {exn : Type} (c : Search.call exn)
  : exn + list KnowledgeSearchResult :=
  match c with
  | Search.SearchCall _ _ r => r
  | Search.RerankCall _ _ _ r => r
  end.

Definition succeeded {exn : Type} (c : Search.call exn) : Prop :=
  exists l, returned c = inr l.

(** A retrieval that throws an [Error] with this message. *)
Definition failingRetrieve (msg : string) (w : unit) (q : string)
  (p : KnowledgeBaseParams) : (string + list KnowledgeSearchResult) * unit :=
  (inl msg, w).

(** The messages sent over a run of the replica's operations. *)
Fixpoint transcript (ops : list Store.op) (s : Store.KnowledgeStoreService)
  : list Store.IpcMessage :=
  match ops with
  | [] => []
  | o :: rest =>
      match o with
      | Store.OpStartSync w => snd (Store.startSync w s)
      | Store.OpStopSync w => snd (Store.stopSync w s)
      | Store.OpSyncBases _ _ => []
      end ++ transcript rest (Store.step o s)
  end.

Definition isStartOp (o : Store.op) : bool :=
  match o with Store.OpStartSync _ => true | _ => false end.

Definition isStopSignal (m : Store.IpcMessage) : bool :=
  match m with Store.KnowledgeStore_StopSync => true | _ => false end.

(** The query a call was given. *)
Definition callQuery {exn : Type} (c : Search.call exn) : string :=
  match c with
  | Search.SearchCall q _ _ => q
  | Search.RerankCall q _ _ _ => q
  end.

Definition retrievals {exn : Type} (log : list (Search.call exn)) : nat :=
  List.length (filter isSearchCall log).

Definition reranks {exn : Type} (log : list (Search.call exn)) : nat :=
  List.length (filter (fun c => negb (isSearchCall c)) log).

Definition isSome {A : Type} (o : option A) : bool :=
  match o with Some _ => true | None => false end.

(** The allow-list as the settings hold it:
    [state.settings.apiServer?.knowledgeBaseIds], nothing when it is unset. *)
Definition configuredAllowList (state : Sync.RootState) : list string :=
  match Sync.settings_apiServer state with
  | Some api =>
      match Sync.knowledgeBaseIds api with
      | Some ids => ids
      | None => []
      end
  | None => []
  end.

(** A list of identifiers without its empty strings. *)
Definition withoutEmpty (ids : list string) : list string :=
  filter (fun i => if string_dec i EmptyString then false else true) ids.

(** Whether an allow-list names an identifier; the empty allow-list names
    every identifier. *)
Definition named (allowList : list string) (i : string) : bool :=
  match allowList with
  | [] => true
  | _ :: _ => if in_dec string_dec i allowList then true else false
  end.

(* ========================================================================= *)
(** * Part II: properties *)

(* ------------------------------------------------------------------------- *)
(** ** Facts about [JsMap] *)

Section JsMapFacts.
Context {V : Type}.
Implicit Types (m : JsMap.t V) (k : string) (v : V).

Lemma JsMap_get_set k k' v m :
  JsMap.get k (JsMap.set k' v m) = if String.eqb k' k then Some v else JsMap.get k m.
Proof.
  induction m as [|[k0 v0] m IH]; simpl.
  - reflexivity.
  - destruct (String.eqb_spec k0 k') as [->|Hne]; simpl.
    + destruct (String.eqb k' k); reflexivity.
    + rewrite IH.
      destruct (String.eqb_spec k0 k) as [->|Hk0]; [|reflexivity].
      destruct (String.eqb_spec k' k) as [->|Hk']; congruence.
Qed.

Lemma JsMap_set_fresh k v m :
  ~ In k (JsMap.keys m) -> JsMap.set k v m = m ++ [(k, v)].
Proof.
  induction m as [|[k0 v0] m IH]; simpl; intros Hk.
  - reflexivity.
  - destruct (String.eqb_spec k0 k) as [->|Hne].
    + exfalso. apply Hk. now left.
    + f_equal. apply IH. intros Hin. apply Hk. now right.
Qed.

Lemma JsMap_keys_app m1 m2 :
  JsMap.keys (m1 ++ m2) = JsMap.keys m1 ++ JsMap.keys m2.
Proof. unfold JsMap.keys. apply map_app. Qed.

End JsMapFacts.

Lemma find_app_last {A : Type} (f : A -> bool) (l : list A) (a : A) :
  find f (l ++ [a]) =
  match find f l with Some x => Some x | None => if f a then Some a else None end.
Proof.
  induction l as [|x l IH]; simpl.
  - reflexivity.
  - destruct (f x); [reflexivity | exact IH].
Qed.

(* ------------------------------------------------------------------------- *)
(** ** The store replica *)

Section StoreFacts.
Import Store.



Lemma get_setAll payload : forall m i,
  JsMap.get i (setAll payload m) =
  match last_entry payload i with Some e => Some e | None => JsMap.get i m end.
Proof.
  unfold last_entry.
  induction payload as [|e payload IH]; intros m i; simpl.
  - reflexivity.
  - unfold setAll in *. simpl. rewrite IH, find_app_last, JsMap_get_set.
    unfold entry_id.
    destruct (find _ (rev payload)); [reflexivity|].
    destruct (String.eqb (id (metadata e)) i); reflexivity.
Qed.

Lemma setAll_distinct payload : forall m,
  NoDup (JsMap.keys m ++ map entry_id payload) ->
  setAll payload m = m ++ map (fun e => (entry_id e, e)) payload.
Proof.
  induction payload as [|e payload IH]; intros m Hnd; simpl.
  - now rewrite app_nil_r.
  - unfold setAll in *. simpl in *.
    assert (Hfresh : ~ In (entry_id e) (JsMap.keys m)).
    { intros Hin. apply NoDup_remove_2 in Hnd. apply Hnd.
      apply in_or_app. now left. }
    fold (entry_id e). rewrite (JsMap_set_fresh _ _ _ Hfresh).
    rewrite IH.
    + now rewrite <- app_assoc.
    + rewrite JsMap_keys_app. simpl. now rewrite <- app_assoc.
Qed.

Lemma handleSyncPayload_inactive now payload s :
  isActive s = false ->
  handleSyncPayload now payload s = (s, {| accepted := false; syncedAt := None |}).
Proof. intros H. unfold handleSyncPayload. now rewrite H. Qed.

Lemma handleSyncPayload_active now payload s :
  isActive s = true ->
  handleSyncPayload now payload s =
  ({| bases := setAll payload JsMap.empty; isActive := true; lastSyncedAt := Some now |},
   {| accepted := true; syncedAt := Some now |}).
Proof. intros H. unfold handleSyncPayload. now rewrite H. Qed.

(** Every operation keeps "inactive implies empty and unstamped". *)
Lemma step_inactive_is_empty o s :
  inactive_is_empty s -> inactive_is_empty (step o s).
Proof.
  unfold inactive_is_empty. intros Hinv.
  destruct o as [w|w|now payload]; simpl.
  - unfold startSync. destruct (isActive s) eqn:Ha; simpl; [congruence | discriminate].
  - unfold stopSync. destruct (isActive s) eqn:Ha; simpl; auto.
  - unfold handleSyncPayload. destruct (isActive s) eqn:Ha; simpl; [congruence | auto].
Qed.

Lemma reachable_inactive_is_empty s :
  reachable s -> inactive_is_empty s.
Proof.
  induction 1 as [|o s Hs IH].
  - intros _. split; reflexivity.
  - now apply step_inactive_is_empty.
Qed.

End StoreFacts.

Section StoreClaims.
Import Store.

(** C1, as stated, fails: a payload may carry two entries under one
    identifier, and the map keeps one entry per identifier. Pushing
    [kb1; kb1'] leaves only the metadata of [kb1'] in [getBases()], which is
    not the metadata projection of the payload as a set. *)
Lemma handleSyncPayload_duplicate_ids :
  let payload := [Sample.kb1; Sample.kb1'] in
  let s' := fst (handleSyncPayload 1700000000002 payload (Sample.activeStore [])) in
  getBases s' = [metadata Sample.kb1'] /\
  ~ (forall m, In m (getBases s') <-> In m (map metadata payload)).
Proof.
  split.
  - reflexivity.
  - intros Hset.
    assert (Hin : In (metadata Sample.kb1) [metadata Sample.kb1']).
    { apply (Hset (metadata Sample.kb1)). simpl. now left. }
    destruct Hin as [Heq|[]].
    apply (f_equal name) in Heq. discriminate Heq.
Qed.

(** C1 (amended): [handleSyncPayload] while inactive answers "not accepted"
    and returns the state it was given; while active it answers "accepted"
    with the new timestamp, stays active, stamps the state, and replaces the
    map so that an identifier is bound to the last entry the payload carries
    for it and to nothing when the payload has none (whatever was stored
    before); when the identifiers of the payload are pairwise distinct,
    [getBases()] is exactly the metadata projection of the payload. *)
Theorem handleSyncPayload_replaces now payload s :
  (isActive s = false ->
   handleSyncPayload now payload s = (s, {| accepted := false; syncedAt := None |}))
  /\
  (isActive s = true ->
   let s' := fst (handleSyncPayload now payload s) in
   snd (handleSyncPayload now payload s) = {| accepted := true; syncedAt := Some now |}
   /\ isSyncActive s' = true
   /\ getLastSyncedAt s' = Some now
   /\ (forall i, getBase i s' = last_entry payload i)
   /\ (NoDup (map entry_id payload) -> getBases s' = map metadata payload)).
Proof.
  split; intros Hact.
  - now apply handleSyncPayload_inactive.
  - rewrite (handleSyncPayload_active _ _ _ Hact). cbn [fst snd].
    repeat split.
    + intros i. unfold getBase. cbn [bases].
      rewrite get_setAll. simpl. now destruct (last_entry payload i).
    + intros Hnd. unfold getBases, JsMap.values. cbn [bases].
      rewrite setAll_distinct by exact Hnd.
      simpl. rewrite !map_map. reflexivity.
Qed.

(** A stale [kb-2] disappears when [kb-1] alone is pushed. *)
Lemma handleSyncPayload_replaces_witness :
  let s := Sample.activeStore [Sample.kb2] in
  let s' := fst (handleSyncPayload 1700000000002 [Sample.kb1] s) in
  getBase "kb-2" s = Some Sample.kb2 /\
  getBase "kb-2" s' = None /\
  getBases s' = [metadata Sample.kb1].
Proof.
  intros s s'.
  destruct (handleSyncPayload_replaces 1700000000002 [Sample.kb1] s) as [_ Hactive].
  destruct (Hactive eq_refl) as (_ & _ & _ & Hget & Hbases).
  split; [reflexivity | split].
  - exact (Hget "kb-2").
  - apply Hbases. repeat constructor. simpl. tauto.
Defined.

(** C7: every operation keeps the invariant that an inactive replica stores
    no base and no timestamp; hence in every reachable state, after
    [stopSync()] the session is inactive, [hasBases()] is false and
    [getLastSyncedAt()] is null. *)
Theorem stopSync_clears :
  (forall o s, inactive_is_empty s -> inactive_is_empty (step o s))
  /\
  (forall s, reachable s ->
   forall mainWindow,
     let s' := fst (stopSync mainWindow s) in
     isSyncActive s' = false /\ hasBases s' = false /\ getLastSyncedAt s' = None).
Proof.
  split.
  - exact step_inactive_is_empty.
  - intros s Hreach mainWindow.
    pose proof (reachable_inactive_is_empty s Hreach) as Hinv.
    unfold stopSync, isSyncActive, hasBases, getLastSyncedAt.
    destruct (isActive s) eqn:Hact; simpl.
    + repeat split.
    + destruct (Hinv Hact) as [Hb Ht].
      rewrite Hact, Hb, Ht. repeat split.
Qed.

(** Started, synced with two bases, then stopped. *)
Lemma stopSync_clears_witness :
  let s := step (OpSyncBases 1700000000002 [Sample.kb1; Sample.kb2])
             (step (OpStartSync true) initial) in
  hasBases s = true /\
  hasBases (fst (stopSync true s)) = false /\
  getLastSyncedAt (fst (stopSync true s)) = None.
Proof.
  intros s.
  assert (Hs : reachable s) by (do 2 apply reach_step; apply reach_initial).
  destruct (proj2 stopSync_clears s Hs true) as (_ & Hb & Ht).
  split; [reflexivity | split; assumption].
Defined.

End StoreClaims.

(* ------------------------------------------------------------------------- *)
(** ** The default [sort] *)

Section SortFacts.


Lemma insert_perm x l : Permutation (Js.insert x l) (x :: l).
Proof.
  induction l as [|y l IH]; simpl.
  - apply Permutation_refl.
  - destruct (String.leb x y).
    + apply Permutation_refl.
    + eapply perm_trans; [apply perm_skip, IH | apply perm_swap].
Qed.

Lemma sort_perm l : Permutation (Js.sort l) l.
Proof.
  induction l as [|x l IH]; simpl.
  - constructor.
  - eapply perm_trans; [apply insert_perm | now apply perm_skip].
Qed.

Lemma insert_hd x y l :
  lex_le y x -> HdRel lex_le y l -> HdRel lex_le y (Js.insert x l).
Proof.
  intros Hyx Hhd. destruct l as [|z l]; simpl.
  - now constructor.
  - destruct (String.leb x z); constructor; trivial.
    now inversion Hhd.
Qed.

Lemma insert_sorted x l : Sorted lex_le l -> Sorted lex_le (Js.insert x l).
Proof.
  induction 1 as [|y l Hs IH Hhd]; simpl.
  - repeat constructor.
  - destruct (String.leb x y) eqn:Hxy.
    + constructor; [now constructor | now constructor].
    + constructor; [exact IH|].
      apply insert_hd; [|exact Hhd].
      destruct (String.leb_total x y) as [H|H]; [congruence | exact H].
Qed.

Lemma sort_sorted l : Sorted lex_le (Js.sort l).
Proof.
  induction l as [|x l IH]; simpl.
  - constructor.
  - now apply insert_sorted.
Qed.

Lemma sort_length l : List.length (Js.sort l) = List.length l.
Proof. apply Permutation_length, sort_perm. Qed.

Lemma lex_le_trans a : forall b c, lex_le a b -> lex_le b c -> lex_le a c.
Proof.
  unfold lex_le, String.leb.
  induction a as [|x a IH]; intros [|y b] [|z c]; simpl; try easy.
  unfold Ascii.compare.
  destruct (N.compare_spec (N_of_ascii x) (N_of_ascii y)) as [Hxy|Hxy|Hxy];
    destruct (N.compare_spec (N_of_ascii y) (N_of_ascii z)) as [Hyz|Hyz|Hyz];
    try easy.
  - rewrite Hxy, Hyz, N.compare_refl. apply IH.
  - intros _ _. rewrite Hxy. now rewrite (proj2 (N.compare_lt_iff _ _) Hyz).
  - intros _ _. rewrite <- Hyz. now rewrite (proj2 (N.compare_lt_iff _ _) Hxy).
  - intros _ _.
    now rewrite (proj2 (N.compare_lt_iff _ _) (N.lt_trans _ _ _ Hxy Hyz)).
Qed.

Lemma lex_le_antisym a b : lex_le a b -> lex_le b a -> a = b.
Proof. apply String.leb_antisym. Qed.

Lemma lex_le_refl a : lex_le a a.
Proof. destruct (String.leb_total a a); assumption. Qed.

Lemma sorted_head_least x l y :
  Sorted lex_le (x :: l) -> In y (x :: l) -> lex_le x y.
Proof.
  intros Hs Hin.
  apply Sorted_StronglySorted in Hs; [|exact lex_le_trans].
  apply StronglySorted_inv in Hs. destruct Hs as [_ Hall].
  destruct Hin as [<-|Hin]; [apply lex_le_refl|].
  rewrite Forall_forall in Hall. now apply Hall.
Qed.

(** A list has one sorted arrangement only. *)
Lemma sorted_perm_eq l1 : forall l2,
  Sorted lex_le l1 -> Sorted lex_le l2 -> Permutation l1 l2 -> l1 = l2.
Proof.
  induction l1 as [|x l1 IH]; intros l2 Hs1 Hs2 Hp.
  - apply Permutation_nil in Hp. now subst.
  - destruct l2 as [|y l2].
    + apply Permutation_sym, Permutation_nil in Hp. discriminate Hp.
    + assert (Hxy : x = y).
      { apply lex_le_antisym.
        - apply (sorted_head_least x l1 y Hs1).
          apply (Permutation_in y (Permutation_sym Hp)). now left.
        - apply (sorted_head_least y l2 x Hs2).
          apply (Permutation_in x Hp). now left. }
      subst y. f_equal. apply IH.
      * now apply Sorted_inv in Hs1.
      * now apply Sorted_inv in Hs2.
      * now apply Permutation_cons_inv in Hp.
Qed.

(** Whatever algorithm sorts the array, it ends as [Js.sort] leaves it. *)
Lemma sort_unique l l' :
  Permutation l' l -> Sorted lex_le l' -> l' = Js.sort l.
Proof.
  intros Hp Hs. apply sorted_perm_eq; [exact Hs | apply sort_sorted|].
  eapply perm_trans; [exact Hp | apply Permutation_sym, sort_perm].
Qed.

End SortFacts.

(* ------------------------------------------------------------------------- *)
(** ** The change fingerprint *)

Section FingerprintFacts.
Import Sync.

Lemma Set_has_in selectedIds i :
  Set_has selectedIds i = if in_dec string_dec i selectedIds then true else false.
Proof.
  unfold Set_has.
  destruct (in_dec string_dec i selectedIds) as [Hin|Hout].
  - apply existsb_exists. exists i. split; [exact Hin | apply String.eqb_refl].
  - destruct (existsb (String.eqb i) selectedIds) eqn:He; [|reflexivity].
    apply existsb_exists in He. destruct He as (x & Hx & Heq).
    apply String.eqb_eq in Heq. subst x. contradiction.
Qed.

Lemma filterBases_select bases selectedIds :
  filterBases bases selectedIds = Fingerprint.selectBases selectedIds bases.
Proof.
  unfold filterBases, Fingerprint.selectBases.
  destruct selectedIds as [|i ids]; [reflexivity|].
  cbn [List.length Nat.eqb].
  apply filter_ext. intros b. apply Set_has_in.
Qed.

Lemma baseSignature_entry b : baseSignature b = Fingerprint.baseEntry b.
Proof.
  unfold baseSignature, Fingerprint.baseEntry, Fingerprint.itemCount.
  cbn [String.concat]. destruct (kb_items b); reflexivity.
Qed.

Lemma selectBases_in allowList bases b :
  In b (Fingerprint.selectBases allowList bases) <->
  In b bases /\ (allowList = [] \/ In (kb_id b) allowList).
Proof.
  unfold Fingerprint.selectBases. destruct allowList as [|i ids].
  - intuition.
  - rewrite filter_In.
    destruct (in_dec string_dec (kb_id b) (i :: ids)); intuition discriminate.
Qed.

Lemma getSelected_withoutEmpty state :
  getSelectedKnowledgeBaseIds state = withoutEmpty (configuredAllowList state).
Proof.
  unfold getSelectedKnowledgeBaseIds, withoutEmpty, configuredAllowList.
  apply filter_ext. intros i. unfold Js.truthy.
  destruct (string_dec i EmptyString) as [->|Hne]; [reflexivity|].
  apply negb_true_iff. now apply String.eqb_neq.
Qed.

(** C8 (amended): the signature the controller computes is the fingerprint
    of the specification for the allow-list that is the configured list of
    identifiers without its empty strings: that allow-list sorted
    lexicographically and joined by commas, or [ALL] when it is empty, then
    [#], then [id:updatedAt:version:itemCount] of each selected base in its
    natural order joined by [|], or [EMPTY] when no base is selected. The
    sorted allow-list is the one sorted arrangement of the allow-list; the
    selected bases are the live bases whose identifier the allow-list names,
    all of them when it is empty, and they are the bases of the snapshot.
    With the configured allow-list [a, c] over the live bases [a, b, c] the
    selection signature is [a,c] and the snapshot holds [a] and [c] only. *)
Theorem computeSignature_fingerprint :
  (forall state,
     let allowList := withoutEmpty (configuredAllowList state) in
     let bases := stateBases state in
     computeSignature state = Fingerprint.fingerprint allowList bases
     /\ Sorted lex_le (Js.sort allowList)
     /\ Permutation (Js.sort allowList) allowList
     /\ (forall sorted,
           Permutation sorted allowList -> Sorted lex_le sorted ->
           sorted = Js.sort allowList)
     /\ (forall b, In b (Fingerprint.selectBases allowList bases) <->
                   In b bases /\ (allowList = [] \/ In (kb_id b) allowList))
     /\ (Fingerprint.selectBases allowList bases = [] ->
         computeSignature state =
         (Fingerprint.selectionSignature allowList ++ "#EMPTY")%string)
     /\ (forall getKnowledgeBaseParams,
           map (fun e => id (metadata e)) (buildPayload getKnowledgeBaseParams state)
           = map kb_id (Fingerprint.selectBases allowList bases)))
  /\
  (let state := Sample.ownerState ["a"; "c"] Sample.liveBases in
   configuredAllowList state = ["a"; "c"]
   /\ Fingerprint.selectionSignature (withoutEmpty (configuredAllowList state)) = "a,c"
   /\ computeSignature state = "a,c#a:1700000000100:1:0|c:1700000000300:3:2"
   /\ forall getKnowledgeBaseParams,
        map (fun e => id (metadata e)) (buildPayload getKnowledgeBaseParams state)
        = ["a"; "c"]).
Proof.
  split.
  - intros state allowList bases.
    assert (Hread : getSelectedKnowledgeBaseIds state = allowList)
      by apply getSelected_withoutEmpty.
    assert (Hsig : computeSignature state = Fingerprint.fingerprint allowList bases).
    { unfold computeSignature, Fingerprint.fingerprint.
      rewrite Hread. fold bases. rewrite filterBases_select.
      assert (Hsel : (if (0 <? List.length allowList)%nat
                      then Js.join "," (Js.sort allowList) else "ALL")
                     = Fingerprint.selectionSignature allowList).
      { destruct allowList; reflexivity. }
      rewrite Hsel.
      destruct (Fingerprint.selectBases allowList bases) as [|b0 rest] eqn:Hfb.
      - reflexivity.
      - cbn [List.length Nat.eqb]. unfold Js.join.
        now rewrite (map_ext _ _ baseSignature_entry). }
    split; [exact Hsig|].
    split; [apply sort_sorted|].
    split; [apply sort_perm|].
    split; [intros sorted; apply sort_unique|].
    split; [intros b; apply selectBases_in|].
    split.
    + intros Hempty. rewrite Hsig. unfold Fingerprint.fingerprint.
      rewrite Hempty. reflexivity.
    + intros gp. unfold buildPayload. rewrite Hread. fold bases.
      rewrite filterBases_select, map_map. reflexivity.
  - cbv zeta. split; [reflexivity|]. split; [reflexivity|].
    split; [vm_compute; reflexivity|].
    intros gp. reflexivity.
Qed.

(** C8, as stated, fails on the allow-list as it is configured: its empty
    strings are dropped before anything is computed. Configured as
    [c, (empty), a], the signature starts with [a,c], not with the sorted
    configured list joined by commas; configured as [(empty)], the signature
    starts with [ALL] and the snapshot holds every live base. *)
Lemma computeSignature_drops_empty_ids :
  let mixed := Sample.ownerState ["c"; ""; "a"] Sample.liveBases in
  let blank := Sample.ownerState [""] Sample.liveBases in
  configuredAllowList mixed = ["c"; ""; "a"]
  /\ computeSignature mixed = "a,c#a:1700000000100:1:0|c:1700000000300:3:2"
  /\ Fingerprint.fingerprint (configuredAllowList mixed) Sample.liveBases
     = ",a,c#a:1700000000100:1:0|c:1700000000300:3:2"
  /\ configuredAllowList blank = [""]
  /\ computeSignature blank
     = "ALL#a:1700000000100:1:0|b:1700000000200:2:0|c:1700000000300:3:2"
  /\ Fingerprint.fingerprint (configuredAllowList blank) Sample.liveBases = "#EMPTY"
  /\ map (fun e => id (metadata e)) (buildPayload Sample.ownerParams blank)
     = ["a"; "b"; "c"].
Proof.
  cbv zeta. repeat split; vm_compute; reflexivity.
Qed.

End FingerprintFacts.

(* ------------------------------------------------------------------------- *)
(** ** The owner-side controller *)

Section ControllerFacts.
Import Sync.

(** Any [getKnowledgeBaseParams]. *)
Variable gp : KnowledgeBase -> KnowledgeBaseParams.

(** The callbacks that start and stop the controller are registered on the
    bridge, so only when it is there. *)
Lemma init_registers_on_bridge bridge c :
  snd (init bridge c) = true -> bridge = true /\ hasInitialized c = false.
Proof.
  unfold init. destruct (hasInitialized c); simpl; [discriminate | auto].
Qed.

Lemma same_signature_refl sig : same_signature sig (Some sig) = true.
Proof. apply String.eqb_refl. Qed.

Lemma same_signature_neq sig last :
  last <> Some sig -> same_signature sig last = false.
Proof.
  destruct last as [l|]; simpl; intros Hne; [|reflexivity].
  apply String.eqb_neq. congruence.
Qed.

Lemma listener_unchanged bridge state c :
  isSyncing c = true ->
  lastSignature c = Some (computeSignature state) ->
  listener gp bridge state c = (c, []).
Proof.
  intros Hs Hl. unfold listener.
  now rewrite Hs, Hl, same_signature_refl.
Qed.

Lemma listener_changed state c :
  isSyncing c = true ->
  lastSignature c <> Some (computeSignature state) ->
  listener gp true state c =
  ({| isSyncing := true; hasInitialized := hasInitialized c;
      unsubscribe := unsubscribe c;
      lastSignature := Some (computeSignature state) |},
   [ {| push_reason := update; push_payload := buildPayload gp state |} ]).
Proof.
  intros Hs Hl. unfold listener, pushCurrentBases.
  rewrite Hs, (same_signature_neq _ _ Hl). reflexivity.
Qed.

Lemma dispatch_mutation_unchanged bridge state st c :
  isSyncing c = true ->
  lastSignature c = Some (computeSignature state) ->
  dispatch gp bridge (Mutation state) {| store := st; service := c |} =
  ({| store := state; service := c |}, []).
Proof.
  intros Hs Hl. unfold dispatch. cbn [store service].
  destruct (unsubscribe c); [|reflexivity].
  now rewrite (listener_unchanged bridge state c Hs Hl).
Qed.

(** A burst of mutations that all leave the signature at the stored one
    pushes nothing and leaves the controller as it was. *)
Lemma run_mutations_unchanged bridge sig c states : forall st,
  isSyncing c = true ->
  lastSignature c = Some sig ->
  Forall (fun s => computeSignature s = sig) states ->
  run gp bridge (map Mutation states) {| store := st; service := c |} =
  ({| store := fold_left (fun _ s => s) states st; service := c |}, []).
Proof.
  induction states as [|s states IH]; intros st Hs Hl Hall.
  - reflexivity.
  - pose proof (Forall_inv Hall) as Hsig.
    pose proof (Forall_inv_tail Hall) as Hrest.
    cbn [map run].
    rewrite dispatch_mutation_unchanged by (trivial; congruence).
    rewrite (IH s Hs Hl Hrest). reflexivity.
Qed.

Lemma startSync_inactive state reason c :
  isSyncing c = false ->
  startSync gp true state reason c =
  ({| isSyncing := true; hasInitialized := hasInitialized c;
      unsubscribe := true;
      lastSignature := Some (computeSignature state) |},
   [ {| push_reason := reason; push_payload := buildPayload gp state |} ]).
Proof. intros Hs. unfold startSync. now rewrite Hs. Qed.

Lemma startSync_active state reason c :
  isSyncing c = true ->
  startSync gp true state reason c =
  (c, [ {| push_reason := refresh; push_payload := buildPayload gp state |} ]).
Proof.
  intros Hs. unfold startSync, pushCurrentBases. now rewrite Hs.
Qed.

(** C2: while the session is active, a mutation whose recomputed signature
    equals the stored one pushes nothing and changes nothing in the
    controller; and when the controller is started from Inactive on a store in
    state [s0] (with the bridge it is started through), any number of
    mutations whose signatures all equal that of [s0] leaves the pushes at
    the one initial push. *)
Theorem no_redundant_push :
  (forall bridge state st c,
     isSyncing c = true ->
     lastSignature c = Some (computeSignature state) ->
     dispatch gp bridge (Mutation state) {| store := st; service := c |} =
     ({| store := state; service := c |}, []))
  /\
  (forall s0 states c,
     isSyncing c = false ->
     Forall (fun s => computeSignature s = computeSignature s0) states ->
     snd (run gp true (RequestSync :: map Mutation states)
            {| store := s0; service := c |}) =
     [ {| push_reason := initial; push_payload := buildPayload gp s0 |} ]).
Proof.
  split.
  - intros bridge state st c. apply dispatch_mutation_unchanged.
  - intros s0 states c Hs Hall.
    cbn [map run dispatch store service].
    rewrite (startSync_inactive s0 initial c Hs).
    rewrite (run_mutations_unchanged true (computeSignature s0) _ states s0);
      trivial.
Qed.

(** C9 (amended): started while Active, the controller pushes the current
    snapshot as a refresh and is left unchanged, stored signature included;
    started while Inactive, it becomes Active, stores the signature of the
    current owner state as the comparison baseline, is subscribed to the
    store (a later mutation that changes the signature pushes an update), and
    pushes the current snapshot. The bridge it is started through is there. *)
Theorem startSync_refresh_or_start state reason c :
  (isSyncing c = true ->
   startSync gp true state reason c =
   (c, [ {| push_reason := refresh; push_payload := buildPayload gp state |} ]))
  /\
  (isSyncing c = false ->
   let c' := fst (startSync gp true state reason c) in
   isSyncing c' = true
   /\ lastSignature c' = Some (computeSignature state)
   /\ unsubscribe c' = true
   /\ snd (startSync gp true state reason c) =
      [ {| push_reason := reason; push_payload := buildPayload gp state |} ]
   /\ forall state',
        computeSignature state' <> computeSignature state ->
        snd (dispatch gp true (Mutation state') {| store := state; service := c' |}) =
        [ {| push_reason := update; push_payload := buildPayload gp state' |} ]).
Proof.
  split; intros Hs.
  - now apply startSync_active.
  - rewrite (startSync_inactive state reason c Hs). cbn [fst snd].
    repeat split.
    intros state' Hne. unfold dispatch. cbn [store service unsubscribe].
    rewrite listener_changed; [reflexivity | reflexivity |].
    cbn [lastSignature]. congruence.
Qed.

End ControllerFacts.

(** C9, as stated, fails: started while Inactive, the controller does not
    leave the stored signature unset; it stores the signature of the current
    state, here [ALL#EMPTY]. *)
Lemma startSync_stores_signature :
  let c' := fst (Sync.startSync Sample.ownerParams true Sample.blankState
                   Sync.initial Sync.fresh) in
  Sync.isSyncing Sync.fresh = false
  /\ Sync.lastSignature c' = Some "ALL#EMPTY"
  /\ Sync.lastSignature c' <> None.
Proof.
  cbv zeta. split; [reflexivity | split; [reflexivity | discriminate]].
Qed.

(** Two mutations that reorder the allow-list and add an empty identifier
    leave the signature as it was: one push in all. *)
Lemma no_redundant_push_witness :
  let s0 := Sample.ownerState ["a"; "c"] Sample.liveBases in
  let s1 := Sample.ownerState ["c"; "a"; ""] Sample.liveBases in
  List.length
    (snd (Sync.run Sample.ownerParams true
            [Sync.RequestSync; Sync.Mutation s1; Sync.Mutation s0]
            {| Sync.store := s0; Sync.service := Sync.fresh |})) = 1.
Proof.
  intros s0 s1.
  assert (Hall : Forall (fun s => Sync.computeSignature s = Sync.computeSignature s0)
                        [s1; s0]) by (repeat constructor).
  exact (f_equal (@List.length _)
           (proj2 (no_redundant_push Sample.ownerParams) s0 [s1; s0] Sync.fresh
              eq_refl Hall)).
Defined.

(** Started on the allow-list [a, c], the controller stores the signature of
    that state. *)
Lemma startSync_refresh_or_start_witness :
  let state := Sample.ownerState ["a"; "c"] Sample.liveBases in
  let c' := fst (Sync.startSync Sample.ownerParams true state
                   Sync.initial Sync.fresh) in
  Sync.lastSignature c' = Some "a,c#a:1700000000100:1:0|c:1700000000300:3:2".
Proof.
  intros state c'.
  destruct (startSync_refresh_or_start Sample.ownerParams state
              Sync.initial Sync.fresh) as [_ Hstart].
  destruct (Hstart eq_refl) as (_ & Hsig & _).
  exact Hsig.
Defined.

(* ------------------------------------------------------------------------- *)
(** ** [trim] and blank strings *)

Section TrimFacts.






End TrimFacts.

(* ------------------------------------------------------------------------- *)
(** ** Subsequences and prefixes *)

Section ListFacts.
Context {A : Type}.

Lemma filter_subsequence (f : A -> bool) (l : list A) :
  subsequence (filter f l) l.
Proof.
  induction l as [|x l IH]; simpl.
  - constructor.
  - destruct (f x); now constructor.
Qed.

Lemma slice0_length (n : N) (l : list A) :
  (List.length (Js.slice0 n l) <= N.to_nat n)%nat.
Proof. unfold Js.slice0. apply firstn_le_length. Qed.

Lemma slice0_Forall (P : A -> Prop) (n : N) (l : list A) :
  Forall P l -> Forall P (Js.slice0 n l).
Proof.
  unfold Js.slice0. intros H. rewrite Forall_forall in *.
  intros x Hx. apply H.
  rewrite <- (firstn_skipn (N.to_nat n) l). apply in_or_app. now left.
Qed.

Lemma slice0_prefix (n : N) (l : list A) :
  exists rest, l = Js.slice0 n l ++ rest.
Proof. exists (skipn (N.to_nat n) l). symmetry. apply firstn_skipn. Qed.

End ListFacts.

(* ------------------------------------------------------------------------- *)
(** ** The query orchestrator *)

Section OrchestratorFacts.
Import Api Search.

Variable DEFAULT_KNOWLEDGE_DOCUMENT_COUNT : N.
Variable DEFAULT_KNOWLEDGE_THRESHOLD : float.
Variable MAX_KNOWLEDGE_TOP_K : N.
Variable World : Type.
Variable exn : Type.
Variable KnowledgeService_search :
  World -> string -> KnowledgeBaseParams -> (exn + list KnowledgeSearchResult) * World.
Variable KnowledgeService_rerank :
  World -> string -> KnowledgeBaseParams -> list KnowledgeSearchResult ->
  (exn + list KnowledgeSearchResult) * World.

Local Notation allowedResults :=
  (Search.allowedResults DEFAULT_KNOWLEDGE_DOCUMENT_COUNT MAX_KNOWLEDGE_TOP_K).
Local Notation threshold := (Search.threshold DEFAULT_KNOWLEDGE_THRESHOLD).
Local Notation filtered := (Search.filtered DEFAULT_KNOWLEDGE_THRESHOLD).
Local Notation searchBase :=
  (Search.searchBase DEFAULT_KNOWLEDGE_DOCUMENT_COUNT DEFAULT_KNOWLEDGE_THRESHOLD
     MAX_KNOWLEDGE_TOP_K World exn KnowledgeService_search KnowledgeService_rerank).
Local Notation forEach :=
  (Search.forEach DEFAULT_KNOWLEDGE_DOCUMENT_COUNT DEFAULT_KNOWLEDGE_THRESHOLD
     MAX_KNOWLEDGE_TOP_K World exn KnowledgeService_search KnowledgeService_rerank).
Local Notation search :=
  (Search.search DEFAULT_KNOWLEDGE_DOCUMENT_COUNT DEFAULT_KNOWLEDGE_THRESHOLD
     MAX_KNOWLEDGE_TOP_K World exn KnowledgeService_search KnowledgeService_rerank).
Local Notation served :=
  (servedBy DEFAULT_KNOWLEDGE_DOCUMENT_COUNT DEFAULT_KNOWLEDGE_THRESHOLD
     MAX_KNOWLEDGE_TOP_K (exn := exn)).


(** The loop body, call by call. *)
Lemma searchBase_run payload request (h : Heap World exn) :
  let q := searchQuery payload in
  let p := params request in
  let r1 := KnowledgeService_search (world h) q p in
  let log1 := calls h ++ [SearchCall q p (fst r1)] in
  searchBase payload request h =
  match fst r1 with
  | inl e => (inl (CollaboratorError e), {| world := snd r1; calls := log1 |})
  | inr ragResults =>
      let fl := filtered payload request ragResults in
      if shouldRerank request fl then
        let r2 := KnowledgeService_rerank (snd r1) q p fl in
        let log2 := log1 ++ [RerankCall q p fl (fst r2)] in
        match fst r2 with
        | inl e => (inl (CollaboratorError e), {| world := snd r2; calls := log2 |})
        | inr ranked =>
            (inr (itemOf (allowedResults payload request) request ranked),
             {| world := snd r2; calls := log2 |})
        end
      else (inr (itemOf (allowedResults payload request) request fl),
            {| world := snd r1; calls := log1 |})
  end.
Proof.
  cbv zeta. unfold Search.searchBase, bind, await_search.
  destruct (KnowledgeService_search (world h) (searchQuery payload) (params request))
    as [[e|ragResults] w1]; cbn [fst snd lift_outcome]; [reflexivity|].
  destruct (shouldRerank request (filtered payload request ragResults)).
  - unfold await_rerank. cbn [world calls].
    destruct (KnowledgeService_rerank w1 (searchQuery payload) (params request)
                (filtered payload request ragResults))
      as [[e|ranked] w2]; reflexivity.
  - reflexivity.
Qed.



Lemma servedBy_incl payload log log' request item :
  incl log log' ->
  served payload log request item -> served payload log' request item.
Proof.
  intros Hincl (ragResults & ranked & Hs & Hitem & Hr).
  exists ragResults, ranked. split; [now apply Hincl|]. split; [exact Hitem|].
  destruct (shouldRerank request (filtered payload request ragResults)).
  - now apply Hincl.
  - exact Hr.
Qed.

Lemma shouldRerank_nonempty request fl : shouldRerank request fl = true -> fl <> [].
Proof.
  unfold shouldRerank. intros H Hnil. subst fl. discriminate H.
Qed.

(** One pass of the loop body: the log only grows, by one retrieval call and
    at most one rerank call on a non-empty input; a failure is a
    collaborator's; an item is served by the new calls. *)
Lemma searchBase_post payload request h out h' :
  searchBase payload request h = (out, h') ->
  exists new,
    calls h' = calls h ++ new
    /\ Forall rerankInputNonEmpty new
    /\ match out with
       | inl f => exists e, f = CollaboratorError e
       | inr item => served payload new request item
       end.
Proof.
  rewrite searchBase_run. cbv zeta.
  destruct (KnowledgeService_search (world h) (searchQuery payload) (params request))
    as [[e|ragResults] w1] eqn:Hs; cbn [fst snd].
  - intros H. inversion H; subst; clear H. cbn [calls].
    eexists. split; [reflexivity|]. split; [repeat constructor | now exists e].
  - destruct (shouldRerank request (filtered payload request ragResults)) eqn:Hguard.
    + pose proof (shouldRerank_nonempty _ _ Hguard) as Hne.
      destruct (KnowledgeService_rerank w1 (searchQuery payload) (params request)
                  (filtered payload request ragResults))
        as [[e|ranked] w2] eqn:Hr; cbn [fst snd];
        intros H; inversion H; subst; clear H; cbn [calls];
        rewrite <- app_assoc; eexists; (split; [reflexivity|]);
        (split; [repeat constructor; exact Hne|]).
      * now exists e.
      * exists ragResults, ranked. cbn [app]. split; [now left|].
        split; [reflexivity|]. rewrite Hguard. right. now left.
    + intros H. inversion H; subst; clear H. cbn [calls].
      eexists. split; [reflexivity|]. split; [repeat constructor|].
      exists ragResults, (filtered payload request ragResults).
      split; [now left|]. split; [reflexivity|]. now rewrite Hguard.
Qed.

(** The whole loop. *)
Lemma forEach_post payload requests : forall h out h',
  forEach payload requests h = (out, h') ->
  exists new,
    calls h' = calls h ++ new
    /\ Forall rerankInputNonEmpty new
    /\ match out with
       | inl f => exists e, f = CollaboratorError e
       | inr items => Forall2 (served payload new) requests items
       end.
Proof.
  induction requests as [|request rest IH]; intros h out h'.
  - cbn [Search.forEach]. unfold ret. intros H. inversion H; subst; clear H.
    exists []. rewrite app_nil_r. repeat split; constructor.
  - cbn [Search.forEach]. unfold bind at 1.
    destruct (searchBase payload request h) as [[f|item] h1] eqn:H1;
      apply searchBase_post in H1; destruct H1 as (new1 & Hc1 & Hne1 & Hpost1).
    + intros H. inversion H; subst; clear H.
      exists new1. auto.
    + unfold bind at 1.
      destruct (forEach payload rest h1) as [[f|items] h2] eqn:H2;
        apply IH in H2; destruct H2 as (new2 & Hc2 & Hne2 & Hpost2);
        unfold ret; intros H; inversion H; subst; clear H;
        exists (new1 ++ new2); rewrite Hc2, Hc1, <- app_assoc;
        (split; [reflexivity|]); (split; [now apply Forall_app|]).
      * exact Hpost2.
      * constructor.
        -- eapply servedBy_incl; [|exact Hpost1]. now apply incl_appl.
        -- eapply Forall2_impl; [|exact Hpost2].
           intros rq it. apply servedBy_incl. now apply incl_appr.
Qed.

(** [search], guard by guard. *)
Lemma search_run s payload (h : Heap World exn) :
  search s payload h =
  if negb (Store.isSyncActive s) || negb (Store.hasBases s)
  then (inl StoreNotReady, h)
  else
    match resolve s (knowledge_base_ids payload) with
    | [] => (inl NoMatchingBases, h)
    | requests =>
        match forEach payload requests h with
        | (inl f, h') => (inl f, h')
        | (inr results, h') => (inr {| data := results |}, h')
        end
    end.
Proof.
  unfold Search.search.
  destruct (negb (Store.isSyncActive s) || negb (Store.hasBases s)); [reflexivity|].
  destruct (resolve s (knowledge_base_ids payload)) as [|request rest]; [reflexivity|].
  cbn [List.length Nat.eqb]. unfold bind.
  destruct (forEach payload (request :: rest) h) as [[f|results] h']; reflexivity.
Qed.

Lemma resolve_In s ids entry :
  In entry (resolve s ids) <-> exists i, In i ids /\ Store.getBase i s = Some entry.
Proof.
  induction ids as [|i ids IH]; simpl.
  - split; [tauto | intros (i & [] & _)].
  - destruct (Store.getBase i s) as [e|] eqn:Hget; simpl; rewrite IH.
    + split.
      * intros [<-|(j & Hj & Hgj)]; [exists i; auto | exists j; auto].
      * intros (j & [<-|Hj] & Hgj); [left; congruence | right; exists j; auto].
    + split.
      * intros (j & Hj & Hgj). exists j; auto.
      * intros (j & [<-|Hj] & Hgj); [congruence | exists j; auto].
Qed.

Lemma resolve_subsequence s ids :
  subsequence (map Some (resolve s ids)) (map (fun i => Store.getBase i s) ids).
Proof.
  induction ids as [|i ids IH]; simpl.
  - constructor.
  - destruct (Store.getBase i s); simpl; now constructor.
Qed.

(** Whatever the outcome, [search] only adds calls to the log, and no rerank
    call among them has an empty input. *)
Lemma search_calls s payload h out h' :
  search s payload h = (out, h') ->
  exists new, calls h' = calls h ++ new /\ Forall rerankInputNonEmpty new.
Proof.
  rewrite search_run.
  destruct (negb (Store.isSyncActive s) || negb (Store.hasBases s)).
  { intros H. inversion H; subst. exists []. now rewrite app_nil_r. }
  destruct (resolve s (knowledge_base_ids payload)) as [|request rest].
  { intros H. inversion H; subst. exists []. now rewrite app_nil_r. }
  destruct (forEach payload (request :: rest) h) as [o h1] eqn:Hloop.
  apply forEach_post in Hloop. destruct Hloop as (new & Hc & Hne & _).
  destruct o; intros H; inversion H; subst; exists new; auto.
Qed.

(** [search] returns a response as soon as both guards pass, a base
    resolves and the collaborators do not throw. *)
Lemma searchBase_returns payload request (h : Heap World exn) :
  (forall w q p, exists l w', KnowledgeService_search w q p = (inr l, w')) ->
  (forall w q p input, exists l w', KnowledgeService_rerank w q p input = (inr l, w')) ->
  exists item h', searchBase payload request h = (inr item, h').
Proof.
  intros Hsearch Hrerank. rewrite searchBase_run. cbv zeta.
  destruct (Hsearch (world h) (searchQuery payload) (params request))
    as (ragResults & w1 & ->). cbn [fst snd].
  destruct (shouldRerank request (filtered payload request ragResults)).
  - destruct (Hrerank w1 (searchQuery payload) (params request)
                (filtered payload request ragResults)) as (ranked & w2 & ->).
    cbn [fst snd]. eauto.
  - eauto.
Qed.

Lemma forEach_returns payload requests :
  (forall w q p, exists l w', KnowledgeService_search w q p = (inr l, w')) ->
  (forall w q p input, exists l w', KnowledgeService_rerank w q p input = (inr l, w')) ->
  forall h, exists items h', forEach payload requests h = (inr items, h').
Proof.
  intros Hsearch Hrerank.
  induction requests as [|request rest IH]; intros h; cbn [Search.forEach].
  - unfold ret. eauto.
  - unfold bind at 1.
    destruct (searchBase_returns payload request h Hsearch Hrerank)
      as (item & h1 & ->).
    unfold bind at 1. destruct (IH h1) as (items & h2 & ->).
    unfold ret. eauto.
Qed.

Lemma search_returns s payload (h : Heap World exn) :
  Store.isSyncActive s = true ->
  Store.hasBases s = true ->
  resolve s (knowledge_base_ids payload) <> [] ->
  (forall w q p, exists l w', KnowledgeService_search w q p = (inr l, w')) ->
  (forall w q p input, exists l w', KnowledgeService_rerank w q p input = (inr l, w')) ->
  exists resp h', search s payload h = (inr resp, h').
Proof.
  intros Ha Hb Hres Hsearch Hrerank.
  rewrite search_run, Ha, Hb. cbn [negb orb].
  destruct (resolve s (knowledge_base_ids payload)) as [|request rest];
    [congruence|].
  destruct (forEach_returns payload (request :: rest) Hsearch Hrerank h)
    as (items & h' & ->).
  eauto.
Qed.

(** A response comes out of the loop over the resolved bases. *)
Lemma search_response s payload h resp h' :
  search s payload h = (inr resp, h') ->
  exists new,
    calls h' = calls h ++ new
    /\ Forall2 (served payload new) (resolve s (knowledge_base_ids payload)) (data resp).
Proof.
  rewrite search_run.
  destruct (negb (Store.isSyncActive s) || negb (Store.hasBases s)); [discriminate|].
  destruct (resolve s (knowledge_base_ids payload)) as [|request rest]; [discriminate|].
  destruct (forEach payload (request :: rest) h) as [o h1] eqn:Hloop.
  apply forEach_post in Hloop. destruct Hloop as (new & Hc & _ & Hpost).
  destruct o as [f|items]; intros H; inversion H; subst.
  exists new. auto.
Qed.

Lemma filtered_In payload request ragResults r :
  In r (filtered payload request ragResults) <->
  In r ragResults /\ Js.geb (score r) (threshold payload request) = true.
Proof. unfold Search.filtered. apply filter_In. Qed.

Lemma filtered_Forall payload request ragResults :
  Forall (fun r => Js.geb (score r) (threshold payload request) = true)
         (filtered payload request ragResults).
Proof. apply Forall_forall. intros r Hr. now apply filtered_In in Hr. Qed.

Lemma shouldRerank_iff request fl :
  shouldRerank request fl = true <->
  fl <> [] /\
  exists client, rerankApiClient (params request) = Some client
                 /\ ac_model client <> EmptyString.
Proof.
  unfold shouldRerank, rerankModelSet, Js.truthy.
  rewrite andb_true_iff. split.
  - intros [Hlen Hm]. split.
    + intros ->. discriminate Hlen.
    + destruct (rerankApiClient (params request)) as [client|]; [|discriminate].
      exists client. split; [reflexivity|].
      apply negb_true_iff in Hm. now apply String.eqb_neq.
  - intros [Hne (client & Hc & Hm)]. split.
    + destruct fl; [congruence | reflexivity].
    + rewrite Hc. apply negb_true_iff. now apply String.eqb_neq.
Qed.

(** C4: [search] throws "not ready" whenever the session is inactive or the
    replica is empty, with the heap (world and call log) as it was; otherwise
    it resolves the requested identifiers against the replica, dropping those
    with no match and keeping the request's order, and throws "no matching
    bases", again with the heap untouched, exactly when none resolves. *)
Theorem search_guards s payload (h : Heap World exn) :
  (Store.isSyncActive s = false \/ Store.hasBases s = false ->
   search s payload h = (inl StoreNotReady, h))
  /\
  (Store.isSyncActive s = true -> Store.hasBases s = true ->
   let requests := resolve s (knowledge_base_ids payload) in
   (forall entry,
      In entry requests <->
      exists i, In i (knowledge_base_ids payload) /\ Store.getBase i s = Some entry)
   /\ subsequence (map Some requests)
                  (map (fun i => Store.getBase i s) (knowledge_base_ids payload))
   /\ (requests = [] -> search s payload h = (inl NoMatchingBases, h))
   /\ (fst (search s payload h) = inl NoMatchingBases <-> requests = [])
   /\ fst (search s payload h) <> inl StoreNotReady).
Proof.
  split.
  - intros Hnot. rewrite search_run.
    destruct Hnot as [Ha|Hb]; [rewrite Ha | rewrite Hb, orb_true_r]; reflexivity.
  - intros Ha Hb requests.
    split; [intros entry; apply resolve_In|].
    split; [apply resolve_subsequence|].
    rewrite search_run, Ha, Hb. cbn [negb orb]. fold requests.
    destruct requests as [|request rest].
    + repeat split; try reflexivity. discriminate.
    + destruct (forEach payload (request :: rest) h) as [[f|items] h'] eqn:Hloop;
        cbn [fst].
      * apply forEach_post in Hloop. destruct Hloop as (_ & _ & _ & e & ->).
        repeat split; discriminate.
      * repeat split; discriminate.
Qed.


(** C6 (amended): the guard of the rerank call holds exactly when the
    filtered sequence is non-empty and the params carry a rerank client
    descriptor whose model identifier is not empty. When retrieval returns,
    the loop body calls rerank, on the filtered sequence, exactly when the
    guard holds; the item then holds what rerank returned (truncated), and
    the filtered sequence (truncated) when rerank is not called. Over a whole
    [search], no rerank call has an empty input. *)
Theorem rerank_guard payload (h : Heap World exn) :
  (forall request fl,
     shouldRerank request fl = true <->
     fl <> [] /\
     exists client, rerankApiClient (params request) = Some client
                    /\ ac_model client <> EmptyString)
  /\
  (forall request ragResults w1,
     KnowledgeService_search (world h) (searchQuery payload) (params request)
     = (inr ragResults, w1) ->
     let q := searchQuery payload in
     let p := params request in
     let fl := filtered payload request ragResults in
     let r2 := KnowledgeService_rerank w1 q p fl in
     let run := searchBase payload request h in
     (shouldRerank request fl = true ->
      calls (snd run) =
        calls h ++ [SearchCall q p (inr ragResults); RerankCall q p fl (fst r2)]
      /\ forall ranked,
           fst r2 = inr ranked ->
           fst run = inr (itemOf (allowedResults payload request) request ranked))
     /\
     (shouldRerank request fl = false ->
      calls (snd run) = calls h ++ [SearchCall q p (inr ragResults)]
      /\ fst run = inr (itemOf (allowedResults payload request) request fl)))
  /\
  (forall s out h',
     search s payload h = (out, h') ->
     exists new, calls h' = calls h ++ new /\ Forall rerankInputNonEmpty new).
Proof.
  split; [exact shouldRerank_iff|]. split; [|intros s; apply search_calls].
  intros request ragResults w1 Hs. cbv zeta.
  rewrite searchBase_run. cbv zeta. rewrite Hs. cbn [fst snd].
  split; intros Hguard; rewrite Hguard.
  - destruct (KnowledgeService_rerank w1 (searchQuery payload) (params request)
                (filtered payload request ragResults)) as [[e|ranked] w2];
      cbn [fst snd calls]; rewrite <- app_assoc; (split; [reflexivity|]);
      intros ranked' Heq; inversion Heq; reflexivity.
  - split; reflexivity.
Qed.

(** C3 (amended): in the response of a [search], the item of every resolved
    base holds at most [allowedResults] results, a prefix of the sequence
    [ranked]; threshold filtering keeps, in retrieval order, exactly the
    retrieved results whose score reaches the threshold; when rerank is not
    called [ranked] is the filtered sequence, so every returned score reaches
    the threshold; when rerank is called [ranked] is what it returned, and
    the returned scores reach the threshold provided rerank returned nothing
    but elements of its input. *)
Theorem search_results_bounded s payload (h : Heap World exn) resp h' :
  search s payload h = (inr resp, h') ->
  exists new,
    calls h' = calls h ++ new
    /\ Forall2
         (fun request item =>
            let limit := allowedResults payload request in
            let reaches r := Js.geb (score r) (threshold payload request) = true in
            (List.length (results item) <= N.to_nat limit)%nat
            /\ exists ragResults ranked,
                 let fl := filtered payload request ragResults in
                 In (SearchCall (searchQuery payload) (params request)
                       (inr ragResults)) new
                 /\ subsequence fl ragResults
                 /\ (forall r, In r fl <-> In r ragResults /\ reaches r)
                 /\ results item = Js.slice0 limit ranked
                 /\ (exists rest, ranked = results item ++ rest)
                 /\ if shouldRerank request fl
                    then In (RerankCall (searchQuery payload) (params request) fl
                               (inr ranked)) new
                         /\ (incl ranked fl -> Forall reaches (results item))
                    else ranked = fl /\ Forall reaches (results item))
         (resolve s (knowledge_base_ids payload)) (data resp).
Proof.
  intros Hrun. apply search_response in Hrun.
  destruct Hrun as (new & Hc & Hserved).
  exists new. split; [exact Hc|].
  eapply Forall2_impl; [|exact Hserved].
  intros request item (ragResults & ranked & Hs & -> & Hr). cbv zeta.
  cbn [results itemOf].
  split; [apply slice0_length|].
  exists ragResults, ranked.
  split; [exact Hs|].
  split; [apply filter_subsequence|].
  split; [intros r; apply filtered_In|].
  split; [reflexivity|].
  split; [apply slice0_prefix|].
  destruct (shouldRerank request (filtered payload request ragResults)).
  - split; [exact Hr|]. intros Hincl.
    apply slice0_Forall, Forall_forall. intros r Hin.
    now apply (filtered_In payload request ragResults r), Hincl.
  - split; [exact Hr|]. subst ranked. apply slice0_Forall, filtered_Forall.
Qed.

(** C10: with no [top_k] in the request, a base whose [documentCount] is 0
    gets the limit 0 (the default is not substituted), so the item the loop
    body produces for it holds no result whatever the collaborators return,
    and so does its item in the response of [search]. *)
Theorem zero_documentCount_empties payload :
  top_k payload = None ->
  (forall request,
     documentCount (metadata request) = Some 0%N ->
     allowedResults payload request = 0%N
     /\ forall (h : Heap World exn) item h',
          searchBase payload request h = (inr item, h') -> results item = [])
  /\
  (forall s (h : Heap World exn) resp h',
     search s payload h = (inr resp, h') ->
     Forall2 (fun request item =>
                documentCount (metadata request) = Some 0%N -> results item = [])
             (resolve s (knowledge_base_ids payload)) (data resp)).
Proof.
  intros Htop.
  assert (Hlimit : forall request,
             documentCount (metadata request) = Some 0%N ->
             allowedResults payload request = 0%N).
  { intros request Hdoc. unfold Search.allowedResults, limitOverride.
    now rewrite Htop, Hdoc. }
  assert (Hserved : forall log request item,
             served payload log request item ->
             documentCount (metadata request) = Some 0%N -> results item = []).
  { intros log request item (ragResults & ranked & _ & -> & _) Hdoc.
    cbn [results itemOf]. now rewrite (Hlimit request Hdoc). }
  split.
  - intros request Hdoc. split; [now apply Hlimit|].
    intros h item h' Hrun. apply searchBase_post in Hrun.
    destruct Hrun as (new & _ & _ & Hs). now apply (Hserved new request).
  - intros s h resp h' Hrun. apply search_response in Hrun.
    destruct Hrun as (new & _ & Hs).
    eapply Forall2_impl; [|exact Hs]. intros request item. apply Hserved.
Qed.

End OrchestratorFacts.

(* ------------------------------------------------------------------------- *)
(** ** The claims on sample runs *)

Section Scenarios.
Import Api Search Scenario.

(** C3, as stated, fails: a returned score may lie below the threshold. The
    base [kb-r] has threshold 0.1 and a rerank model; retrieval returns scores
    0.05, 0.2, 0.9; the two results that pass the filter go to the reranker,
    which scores them 0.01, and [search] returns them as they come back. *)
Lemma search_returns_rescored :
  let payload := request ["kb-r"] None in
  exists resp h',
    run rescore [kbRerank] payload = (inr resp, h')
    /\ data resp =
       [ {| knowledge_base_id := "kb-r"; knowledge_base_name := "Reranked";
            results := [hit "mid" 0.01%float; hit "high" 0.01%float] |} ]
    /\ Search.threshold defaultThreshold payload kbRerank = 0.1%float
    /\ Js.geb 0.01%float 0.1%float = false.
Proof.
  cbv zeta. do 2 eexists.
  split; [vm_compute; reflexivity|].
  repeat split; reflexivity.
Qed.

(** C6, as stated, fails: the params of [kb-e] carry a rerank client
    descriptor, two results pass the filter, and rerank is not called,
    because the descriptor's model is the empty string. *)
Lemma search_skips_rerank_without_model :
  let payload := request ["kb-e"] None in
  rerankApiClient (params kbNoModel) = Some (Sample.rerankClient EmptyString)
  /\ Search.filtered defaultThreshold payload kbNoModel hits
     = [hit "mid" 0.2%float; hit "high" 0.9%float]
  /\ calls (snd (run rescore [kbNoModel] payload))
     = [SearchCall (query payload) (params kbNoModel) (inr hits)].
Proof.
  cbv zeta. repeat split; vm_compute; reflexivity.
Qed.

(** With a rerank model set and two results past the filter, rerank is
    called on those two and the item holds what it returned. *)
Lemma rerank_guard_witness :
  let payload := request ["kb-r"] None in
  let fl := [hit "mid" 0.2%float; hit "high" 0.9%float] in
  let outcome :=
    searchBase defaultCount defaultThreshold maxTopK unit string retrieve reverse
      payload kbRerank heap0 in
  calls (snd outcome) =
    [ SearchCall (query payload) (params kbRerank) (inr hits);
      RerankCall (query payload) (params kbRerank) fl (inr (rev fl)) ]
  /\ fst outcome = inr (itemOf 10%N kbRerank (rev fl)).
Proof.
  intros payload fl outcome.
  destruct (proj1 (proj2 (rerank_guard defaultCount defaultThreshold maxTopK
                            unit string retrieve reverse payload heap0))
              kbRerank hits tt eq_refl) as [Hcalled _].
  destruct (Hcalled eq_refl) as [Hlog Hitem].
  split; [exact Hlog | exact (Hitem (rev fl) eq_refl)].
Defined.

(** An identifier the replica does not hold, and an inactive replica. *)
Lemma search_guards_witness :
  fst (run reverse [Sample.kb1] (request ["missing"] None)) = inl NoMatchingBases
  /\ fst (search defaultCount defaultThreshold maxTopK unit string retrieve reverse
            Store.initial (request ["kb-1"] None) heap0) = inl StoreNotReady.
Proof.
  split.
  - apply (search_guards defaultCount defaultThreshold maxTopK unit string
             retrieve reverse (Sample.activeStore [Sample.kb1])
             (request ["missing"] None) heap0); reflexivity.
  - apply (f_equal fst
             (proj1 (search_guards defaultCount defaultThreshold maxTopK unit string
                       retrieve reverse Store.initial (request ["kb-1"] None) heap0)
                    (or_introl eq_refl))).
Defined.



(** The scenario of the specification: [kb-1] has threshold 0.1,
    [documentCount] 10 and no rerank client; of the three retrieved results
    the two that reach the threshold are returned, in retrieval order, and
    rerank is not called. *)
Lemma search_results_bounded_witness :
  exists resp h',
    run reverse [Sample.kb1] (request ["kb-1"] None) = (inr resp, h')
    /\ map results (data resp) = [[hit "mid" 0.2%float; hit "high" 0.9%float]]
    /\ calls h' = [SearchCall "what is a knowledge base" (params Sample.kb1) (inr hits)]
    /\ Forall (fun item =>
                 Forall (fun r => Js.geb (score r) 0.1%float = true) (results item))
              (data resp).
Proof.
  assert (Hrun : exists resp h',
             run reverse [Sample.kb1] (request ["kb-1"] None) = (inr resp, h')
             /\ map results (data resp) = [[hit "mid" 0.2%float; hit "high" 0.9%float]]
             /\ calls h' = [SearchCall "what is a knowledge base" (params Sample.kb1)
                              (inr hits)]).
  { do 2 eexists. split; [vm_compute; reflexivity|]. split; reflexivity. }
  destruct Hrun as (resp & h' & Hrun & Hres & Hcalls).
  exists resp, h'. split; [exact Hrun|]. split; [exact Hres|]. split; [exact Hcalls|].
  destruct (search_results_bounded defaultCount defaultThreshold maxTopK unit string
              retrieve reverse _ _ _ _ _ Hrun) as (new & _ & Hall).
  change (resolve (Sample.activeStore [Sample.kb1])
            (knowledge_base_ids (request ["kb-1"] None))) with [Sample.kb1] in Hall.
  inversion Hall as [|rq item rqs items Hitem Hrest]; subst.
  inversion Hrest; subst.
  constructor; [|constructor].
  destruct Hitem as (_ & ragResults & ranked & _ & _ & _ & _ & _ & Hguard).
  cbv zeta in Hguard.
  change (shouldRerank Sample.kb1
            (Search.filtered defaultThreshold (request ["kb-1"] None) Sample.kb1
               ragResults))
    with ((0 <? List.length
                  (Search.filtered defaultThreshold (request ["kb-1"] None)
                     Sample.kb1 ragResults))%nat && false) in Hguard.
  rewrite andb_false_r in Hguard.
  exact (proj2 Hguard).
Defined.

(** [kb-0] gets no result although retrieval returned three; [kb-1], served
    by the same retrieval, gets two. *)
Lemma zero_documentCount_empties_witness :
  exists resp h',
    run reverse [kbZero; Sample.kb1] (request ["kb-0"; "kb-1"] None) = (inr resp, h')
    /\ map results (data resp) = [[]; [hit "mid" 0.2%float; hit "high" 0.9%float]]
    /\ Forall2 (fun request item =>
                  documentCount (metadata request) = Some 0%N -> results item = [])
               [kbZero; Sample.kb1] (data resp).
Proof.
  assert (Hrun : exists resp h',
             run reverse [kbZero; Sample.kb1] (request ["kb-0"; "kb-1"] None)
             = (inr resp, h')
             /\ map results (data resp)
                = [[]; [hit "mid" 0.2%float; hit "high" 0.9%float]]).
  { do 2 eexists. split; [vm_compute; reflexivity | reflexivity]. }
  destruct Hrun as (resp & h' & Hrun & Hres).
  exists resp, h'. split; [exact Hrun|]. split; [exact Hres|].
  exact (proj2 (zero_documentCount_empties defaultCount defaultThreshold maxTopK
                  unit string retrieve reverse (request ["kb-0"; "kb-1"] None) eq_refl)
               _ _ _ _ Hrun).
Defined.

End Scenarios.

(* ========================================================================= *)
(** * Part III: further properties of the three services and the routes *)

(* ------------------------------------------------------------------------- *)
(** ** The replica's map is keyed by identifier *)

Section KeyedFacts.
Import Store.

Lemma JsMap_keys_set {V : Type} (k : string) (v : V) (m : JsMap.t V) :
  JsMap.keys (JsMap.set k v m) =
  if in_dec string_dec k (JsMap.keys m) then JsMap.keys m else JsMap.keys m ++ [k].
Proof.
  induction m as [|[k0 v0] m IH]; simpl.
  - reflexivity.
  - destruct (String.eqb_spec k0 k) as [->|Hne]; simpl.
    + destruct (string_dec k k) as [Hkk|Hkk]; [reflexivity | congruence].
    + rewrite IH. destruct (string_dec k0 k) as [Heq|Hk0]; [congruence|].
      destruct (in_dec string_dec k (JsMap.keys m)); reflexivity.
Qed.

Lemma JsMap_set_In {V : Type} (k : string) (v : V) (m : JsMap.t V) kv :
  In kv (JsMap.set k v m) -> kv = (k, v) \/ In kv m.
Proof.
  induction m as [|[k0 v0] m IH]; simpl.
  - intros [<-|[]]. now left.
  - destruct (String.eqb_spec k0 k) as [->|Hne]; simpl.
    + intros [<-|Hin]; auto.
    + intros [<-|Hin]; auto. destruct (IH Hin); auto.
Qed.

Lemma JsMap_get_In {V : Type} (k : string) (v : V) (m : JsMap.t V) :
  JsMap.get k m = Some v -> In (k, v) m.
Proof.
  induction m as [|[k0 v0] m IH]; simpl; [discriminate|].
  destruct (String.eqb_spec k0 k) as [->|Hne].
  - intros H. inversion H. now left.
  - intros H. right. now apply IH.
Qed.

Lemma JsMap_In_get {V : Type} (k : string) (v : V) (m : JsMap.t V) :
  NoDup (JsMap.keys m) -> In (k, v) m -> JsMap.get k m = Some v.
Proof.
  induction m as [|[k0 v0] m IH]; simpl; [tauto|].
  intros Hnd [Heq|Hin].
  - inversion Heq; subst. now rewrite String.eqb_refl.
  - inversion Hnd as [|? ? Hout Hnd']; subst.
    destruct (String.eqb_spec k0 k) as [->|Hne].
    + exfalso. apply Hout. change k with (fst (k, v)). now apply in_map.
    + now apply IH.
Qed.

Lemma NoDup_snoc {A : Type} (l : list A) (a : A) :
  NoDup l -> ~ In a l -> NoDup (l ++ [a]).
Proof.
  intros Hnd Hout. apply NoDup_app; [exact Hnd | repeat constructor; tauto|].
  intros x Hx [<-|[]]. contradiction.
Qed.

Lemma keyedById_set e m : keyedById m -> keyedById (JsMap.set (entry_id e) e m).
Proof.
  intros [Hnd Hall]. split.
  - rewrite JsMap_keys_set.
    destruct (in_dec string_dec (entry_id e) (JsMap.keys m)); [exact Hnd|].
    now apply NoDup_snoc.
  - apply Forall_forall. intros kv Hin.
    apply JsMap_set_In in Hin. destruct Hin as [->|Hin]; [reflexivity|].
    rewrite Forall_forall in Hall. now apply Hall.
Qed.

Lemma keyedById_setAll payload : forall m, keyedById m -> keyedById (setAll payload m).
Proof.
  unfold setAll. induction payload as [|e payload IH]; intros m Hm; simpl.
  - exact Hm.
  - apply IH. now apply (keyedById_set e).
Qed.

Lemma keyedById_empty : keyedById JsMap.empty.
Proof. split; constructor. Qed.

Lemma reachable_keyedById s : reachable s -> keyedById (bases s).
Proof.
  induction 1 as [|o s Hs IH].
  - apply keyedById_empty.
  - destruct o as [w|w|now payload]; simpl.
    + unfold startSync. now destruct (isActive s).
    + unfold stopSync. destruct (isActive s); simpl; [apply keyedById_empty | exact IH].
    + unfold handleSyncPayload. destruct (isActive s); simpl; [|exact IH].
      apply keyedById_setAll, keyedById_empty.
Qed.

Lemma keyedById_ids m :
  keyedById m -> map (fun e => id (metadata e)) (JsMap.values m) = JsMap.keys m.
Proof.
  intros [_ Hall]. unfold JsMap.values, JsMap.keys. rewrite map_map.
  apply map_ext_in. intros kv Hin. rewrite Forall_forall in Hall.
  symmetry. now apply Hall.
Qed.

Lemma keys_setAll_In payload : forall m i,
  In i (JsMap.keys (setAll payload m)) <->
  In i (JsMap.keys m) \/ In i (map entry_id payload).
Proof.
  unfold setAll. induction payload as [|e payload IH]; intros m i; simpl.
  - tauto.
  - rewrite IH, JsMap_keys_set. fold (entry_id e).
    destruct (in_dec string_dec (entry_id e) (JsMap.keys m)) as [Hin|Hout].
    + split; [tauto|]. intros [H|[<-|H]]; auto.
    + rewrite in_app_iff. simpl. intuition.
Qed.

(** X3: in every reachable state the replica is keyed by identifier: the
    bases it lists have pairwise distinct identifiers, an entry fetched by an
    identifier carries that identifier (and [getBaseParams] gives its params),
    and every listed base is the metadata of the entry fetched by its
    identifier. *)
Theorem replica_keyed_by_id s :
  reachable s ->
  NoDup (map id (getBases s))
  /\ (forall i e, getBase i s = Some e ->
        id (metadata e) = i /\ getBaseParams i s = Some (params e))
  /\ (forall m, In m (getBases s) ->
        exists e, getBase (id m) s = Some e /\ metadata e = m).
Proof.
  intros Hreach. pose proof (reachable_keyedById s Hreach) as Hkeyed.
  split; [|split].
  - unfold getBases. rewrite map_map, (keyedById_ids _ Hkeyed).
    exact (proj1 Hkeyed).
  - intros i e Hget. unfold getBase in Hget. split.
    + apply JsMap_get_In in Hget. destruct Hkeyed as [_ Hall].
      rewrite Forall_forall in Hall. symmetry. exact (Hall _ Hget).
    + unfold getBaseParams. now rewrite Hget.
  - intros m Hin. unfold getBases, JsMap.values in Hin.
    rewrite map_map in Hin. apply in_map_iff in Hin.
    destruct Hin as ([k e] & <- & Hin). exists e. split; [|reflexivity].
    unfold getBase. apply JsMap_In_get; [exact (proj1 Hkeyed)|].
    destruct Hkeyed as [_ Hall]. rewrite Forall_forall in Hall.
    pose proof (Hall _ Hin) as Hk. simpl in *. unfold entry_id in Hk. now subst k.
Qed.

(** Two entries pushed under one identifier: one base is listed, and it is
    fetched by that identifier. *)
Lemma replica_keyed_by_id_witness :
  let s := step (OpSyncBases 1700000000002 [Sample.kb1; Sample.kb2; Sample.kb1'])
             (step (OpStartSync true) initial) in
  map id (getBases s) = ["kb-1"; "kb-2"]
  /\ NoDup (map id (getBases s))
  /\ exists e, getBase "kb-1" s = Some e /\ metadata e = metadata Sample.kb1'.
Proof.
  intros s.
  assert (Hs : reachable s) by (do 2 apply reach_step; apply reach_initial).
  destruct (replica_keyed_by_id s Hs) as (Hnd & _ & Hlisted).
  split; [reflexivity | split; [exact Hnd|]].
  apply (Hlisted (metadata Sample.kb1')). simpl. now left.
Defined.

End KeyedFacts.

(* ------------------------------------------------------------------------- *)
(** ** Sessions and successive pushes on the replica *)

Section SessionFacts.
Import Store.

(** X1: [startSync] leaves the session active and keeps the bases and the
    timestamp it finds, also when the session was active already; it sends one
    sync request to the renderer when there is a main window and nothing when
    there is none. [stopSync] sends the stop signal only when the session was
    active and there is a main window, and a [stopSync] right after another
    changes nothing and sends nothing. *)
Theorem session_toggles mainWindow s :
  (isSyncActive (fst (startSync mainWindow s)) = true
   /\ bases (fst (startSync mainWindow s)) = bases s
   /\ lastSyncedAt (fst (startSync mainWindow s)) = lastSyncedAt s
   /\ snd (startSync mainWindow s) =
      if mainWindow then [KnowledgeStore_RequestSync] else [])
  /\
  (snd (stopSync mainWindow s) =
     (if isActive s && mainWindow then [KnowledgeStore_StopSync] else [])
   /\ forall mainWindow',
        stopSync mainWindow' (fst (stopSync mainWindow s)) =
        (fst (stopSync mainWindow s), [])).
Proof.
  split.
  - unfold startSync, isSyncActive, requestSyncFromRenderer.
    destruct (isActive s) eqn:Ha; simpl; auto.
  - unfold stopSync, sendStopSignal.
    destruct (isActive s) eqn:Ha; simpl.
    + split; [reflexivity|]. intros w'. reflexivity.
    + split; [reflexivity|]. intros w'. now rewrite Ha.
Qed.

(** X2: of two pushes in a row the second wins whole: the replica is as if
    the first had not been made, whether the session is active or not. *)
Theorem later_push_supersedes now1 now2 payload1 payload2 s :
  handleSyncPayload now2 payload2 (fst (handleSyncPayload now1 payload1 s)) =
  handleSyncPayload now2 payload2 s.
Proof.
  unfold handleSyncPayload. destruct (isActive s) eqn:Ha; simpl.
  - reflexivity.
  - now rewrite Ha.
Qed.

Lemma setAll_length payload :
  List.length (setAll payload JsMap.empty)
  = List.length (nodup string_dec (map entry_id payload)).
Proof.
  pose proof (keyedById_setAll payload JsMap.empty keyedById_empty) as [Hnd _].
  rewrite <- (length_map fst). fold (JsMap.keys (setAll payload JsMap.empty)).
  apply Permutation_length, NoDup_Permutation; [exact Hnd | apply NoDup_nodup|].
  intros i. rewrite keys_setAll_In, nodup_In. simpl. tauto.
Qed.

(** X4: an accepted push leaves as many bases as the payload has distinct
    identifiers, so at most as many as it has entries; the replica has bases
    afterwards exactly when the payload is not empty. An empty payload is
    accepted all the same and empties the replica. *)
Theorem accepted_push_size now payload s :
  isActive s = true ->
  let s' := fst (handleSyncPayload now payload s) in
  List.length (getBases s') = List.length (nodup string_dec (map entry_id payload))
  /\ (List.length (getBases s') <= List.length payload)%nat
  /\ (hasBases s' = true <-> payload <> [])
  /\ (payload = [] -> accepted (snd (handleSyncPayload now payload s)) = true
                      /\ getBases s' = []).
Proof.
  intros Ha. rewrite (handleSyncPayload_active _ _ _ Ha). cbn [fst snd].
  assert (Hlen : List.length (getBases {| bases := setAll payload JsMap.empty;
                                          isActive := true;
                                          lastSyncedAt := Some now |})
                 = List.length (nodup string_dec (map entry_id payload))).
  { unfold getBases, JsMap.values. cbn [bases]. rewrite !length_map.
    apply setAll_length. }
  split; [exact Hlen|]. split; [|split].
  - rewrite Hlen. rewrite <- (length_map entry_id payload).
    apply NoDup_incl_length; [apply NoDup_nodup|].
    intros i Hi. now apply nodup_In in Hi.
  - unfold hasBases, JsMap.size. cbn [bases]. rewrite setAll_length.
    destruct payload as [|e payload].
    + simpl. split; [discriminate | congruence].
    + split; [discriminate|]. intros _. apply Nat.ltb_lt.
      assert (Hin : In (entry_id e) (nodup string_dec (map entry_id (e :: payload)))).
      { apply nodup_In. now left. }
      destruct (nodup string_dec (map entry_id (e :: payload))); [destruct Hin|].
      simpl. lia.
  - intros ->. split; reflexivity.
Qed.

(** Three entries under two identifiers leave two bases. *)
Lemma accepted_push_size_witness :
  let s' := fst (handleSyncPayload 1700000000002
                   [Sample.kb1; Sample.kb2; Sample.kb1'] (Sample.activeStore [])) in
  List.length (getBases s') = 2 /\ hasBases s' = true.
Proof.
  intros s'.
  destruct (accepted_push_size 1700000000002 [Sample.kb1; Sample.kb2; Sample.kb1']
              (Sample.activeStore []) eq_refl) as (Hlen & _ & Hhas & _).
  split; [exact Hlen|]. apply Hhas. discriminate.
Defined.

End SessionFacts.

(* ------------------------------------------------------------------------- *)
(** ** Listing the bases *)

Section ListingFacts.
Import Store Listing.

Variable toISOString : N -> string.

(** X5: when [listBases] returns in a reachable state, it lists the replica's
    bases, which are at least one and have pairwise distinct identifiers;
    [total] is their number; and a sync timestamp exists, rendered in
    [syncedAt] unless it is 0. *)
Theorem listBases_lists_replica s response :
  reachable s ->
  listBases toISOString s = inr response ->
  data response = getBases s
  /\ total response = List.length (data response)
  /\ (1 <= total response)%nat
  /\ NoDup (map id (data response))
  /\ exists t, getLastSyncedAt s = Some t
               /\ syncedAt response =
                  if (t =? 0)%N then None else Some (toISOString t).
Proof.
  intros Hreach. unfold listBases.
  destruct (isSyncActive s) eqn:Ha; [|discriminate].
  destruct (hasBases s) eqn:Hb; [|discriminate].
  cbn [negb orb]. intros H. inversion H; subst; clear H. cbn [data total syncedAt].
  split; [reflexivity|]. split; [reflexivity|].
  split.
  { unfold hasBases, JsMap.size in Hb. apply Nat.ltb_lt in Hb.
    unfold getBases, JsMap.values. now rewrite !length_map. }
  split.
  { pose proof (reachable_keyedById s Hreach) as Hkeyed.
    unfold getBases. rewrite map_map, (keyedById_ids _ Hkeyed).
    exact (proj1 Hkeyed). }
  unfold getLastSyncedAt.
  destruct (lastSyncedAt s) as [t|] eqn:Ht; [now exists t|].
  exfalso.
  assert (Hstamped : forall s0, reachable s0 ->
            bases s0 <> JsMap.empty -> lastSyncedAt s0 <> None).
  { clear. induction 1 as [|o s0 Hs0 IH]; [now intros H|].
    destruct o as [w|w|now payload]; simpl.
    - unfold startSync. now destruct (isActive s0).
    - unfold stopSync. destruct (isActive s0); simpl; [now intros H | exact IH].
    - unfold handleSyncPayload. destruct (isActive s0); simpl; [discriminate | exact IH]. }
  apply (Hstamped s Hreach); [|exact Ht].
  intros Hempty. unfold hasBases in Hb. rewrite Hempty in Hb. discriminate Hb.
Qed.

End ListingFacts.

(** Two bases synced at 1700000000002, listed with a stand-in rendering of
    the date. *)
Lemma listBases_lists_replica_witness :
  let s := Store.step (Store.OpSyncBases 1700000000002 [Sample.kb1; Sample.kb2])
             (Store.step (Store.OpStartSync true) Store.initial) in
  exists response,
    Listing.listBases Js.toString s = inr response
    /\ Listing.total response = 2
    /\ Listing.syncedAt response = Some (Js.toString 1700000000002).
Proof.
  intros s.
  assert (Hs : Store.reachable s)
    by (do 2 apply Store.reach_step; apply Store.reach_initial).
  eexists. split; [reflexivity|].
  destruct (listBases_lists_replica Js.toString s _ Hs eq_refl)
    as (_ & Htotal & _ & _ & t & Ht & Hsynced).
  split; [exact Htotal|].
  inversion Ht; subst t. exact Hsynced.
Defined.


(* ------------------------------------------------------------------------- *)
(** ** The knowledge routes *)

Section RouteFacts.
Import Api Search Routes.

Variable DEFAULT_KNOWLEDGE_DOCUMENT_COUNT : N.
Variable DEFAULT_KNOWLEDGE_THRESHOLD : float.
Variable MAX_KNOWLEDGE_TOP_K : N.
Variable World : Type.
Variable exn : Type.
Variable KnowledgeService_search :
  World -> string -> KnowledgeBaseParams -> (exn + list KnowledgeSearchResult) * World.
Variable KnowledgeService_rerank :
  World -> string -> KnowledgeBaseParams -> list KnowledgeSearchResult ->
  (exn + list KnowledgeSearchResult) * World.
Variable errorMessage : exn -> option string.
Variable toISOString : N -> string.

Local Notation search :=
  (Search.search DEFAULT_KNOWLEDGE_DOCUMENT_COUNT DEFAULT_KNOWLEDGE_THRESHOLD
     MAX_KNOWLEDGE_TOP_K World exn KnowledgeService_search KnowledgeService_rerank).
Local Notation postSearch :=
  (Routes.postSearch DEFAULT_KNOWLEDGE_DOCUMENT_COUNT DEFAULT_KNOWLEDGE_THRESHOLD
     MAX_KNOWLEDGE_TOP_K World exn KnowledgeService_search KnowledgeService_rerank
     errorMessage).
Local Notation searchFailure := (Routes.searchFailure exn errorMessage).

Lemma search_not_ready_iff s payload (h : Heap World exn) :
  fst (search s payload h) = inl StoreNotReady <->
  Store.isSyncActive s = false \/ Store.hasBases s = false.
Proof.
  rewrite search_run.
  destruct (Store.isSyncActive s), (Store.hasBases s); cbn [negb orb fst];
    try (split; [auto | reflexivity]).
  split; [|intros [H|H]; discriminate H].
  destruct (resolve s (knowledge_base_ids payload)) as [|request rest];
    [discriminate|].
  destruct (Search.forEach _ _ _ _ _ _ _ payload (request :: rest) h)
    as [[f|items] h'] eqn:Hloop; cbn [fst]; [|discriminate].
  apply forEach_post in Hloop. destruct Hloop as (_ & _ & _ & e & ->).
  discriminate.
Qed.

(** X6: the listing and the search stand behind one guard: [GET /bases]
    answers 200 with the list when the session is active and the replica has
    bases, and 503 otherwise; it answers 503 exactly when [search], on any
    request, throws "not ready". *)
Theorem listing_and_search_share_guard s payload (h : Heap World exn) :
  (status (Routes.getBases toISOString s) = 200%N \/
   status (Routes.getBases toISOString s) = 503%N)
  /\ (status (Routes.getBases toISOString s) = 200%N <->
      Store.isSyncActive s = true /\ Store.hasBases s = true)
  /\ (status (Routes.getBases toISOString s) = 503%N <->
      fst (search s payload h) = inl StoreNotReady).
Proof.
  rewrite search_not_ready_iff.
  unfold Routes.getBases, Listing.listBases.
  destruct (Store.isSyncActive s), (Store.hasBases s); cbn [negb orb status];
    (split; [auto|]); split; split; intros H;
    try discriminate H; try reflexivity; try (destruct H; discriminate); auto.
Qed.

(** X7: the statuses of [POST /search]. A body the schema rejects gets 400
    and [search] is not run. Otherwise: 503 when the session is inactive or
    the replica empty, 404 when no identifier resolves, both before any
    collaborator call; 200 with the response when [search] returns; and when
    a collaborator throws, 500, unless what it threw is an [Error] whose
    message contains "No matching knowledge bases" (then 404) or else
    "not ready" (then 503). *)
Theorem postSearch_statuses s requestBody (h : Heap World exn) :
  (ApiKnowledgeSearchSchema MAX_KNOWLEDGE_TOP_K requestBody = false ->
   status (fst (postSearch s requestBody h)) = 400%N
   /\ snd (postSearch s requestBody h) = h)
  /\
  (ApiKnowledgeSearchSchema MAX_KNOWLEDGE_TOP_K requestBody = true ->
   (Store.isSyncActive s = false \/ Store.hasBases s = false ->
    status (fst (postSearch s requestBody h)) = 503%N
    /\ snd (postSearch s requestBody h) = h)
   /\ (Store.isSyncActive s = true -> Store.hasBases s = true ->
       resolve s (knowledge_base_ids requestBody) = [] ->
       status (fst (postSearch s requestBody h)) = 404%N
       /\ snd (postSearch s requestBody h) = h)
   /\ (forall response h',
         search s requestBody h = (inr response, h') ->
         postSearch s requestBody h = ({| status := 200; body := inr response |}, h'))
   /\ (forall e h',
         search s requestBody h = (inl (CollaboratorError e), h') ->
         status (fst (postSearch s requestBody h)) =
         match errorMessage e with
         | Some m =>
             if JsText.includes m "No matching knowledge bases" then 404%N
             else if JsText.includes m "not ready" then 503%N else 500%N
         | None => 500%N
         end)).
Proof.
  unfold Routes.postSearch. split; intros Hschema; rewrite Hschema; cbn [negb].
  - split; reflexivity.
  - split; [|split; [|split]].
    + intros Hnot. rewrite search_run.
      destruct Hnot as [H|H]; rewrite H; rewrite ?orb_true_r; split; reflexivity.
    + intros Ha Hb Hres. rewrite search_run, Ha, Hb, Hres. split; reflexivity.
    + intros response h' ->. reflexivity.
    + intros e h' ->. cbn [fst]. unfold Routes.searchFailure, thrownMessage.
      destruct (errorMessage e) as [m|]; [|reflexivity].
      cbn [messageIncludes].
      destruct (JsText.includes m "No matching knowledge bases"); [reflexivity|].
      destruct (JsText.includes m "not ready"); reflexivity.
Qed.

End RouteFacts.

(** A retrieval that fails with "index not ready yet" is answered 503,
    although the replica is ready; with another message it is answered 500. *)
Lemma postSearch_statuses_witness :
  let post msg :=
    Routes.postSearch Scenario.defaultCount Scenario.defaultThreshold Scenario.maxTopK
      unit string (failingRetrieve msg) Scenario.reverse (fun m => Some m)
      (Sample.activeStore [Sample.kb1]) (Scenario.request ["kb-1"] None)
      Scenario.heap0 in
  Routes.status (fst (post "index not ready yet")) = 503%N
  /\ Routes.status (fst (post "connection refused")) = 500%N.
Proof.
  intros post. split.
  - exact (proj2 (proj2 (proj2 (proj2
             (postSearch_statuses Scenario.defaultCount Scenario.defaultThreshold
                Scenario.maxTopK unit string (failingRetrieve "index not ready yet")
                Scenario.reverse (fun m => Some m)
                (Sample.activeStore [Sample.kb1]) (Scenario.request ["kb-1"] None)
                Scenario.heap0) eq_refl)))
           "index not ready yet" _ eq_refl).
  - exact (proj2 (proj2 (proj2 (proj2
             (postSearch_statuses Scenario.defaultCount Scenario.defaultThreshold
                Scenario.maxTopK unit string (failingRetrieve "connection refused")
                Scenario.reverse (fun m => Some m)
                (Sample.activeStore [Sample.kb1]) (Scenario.request ["kb-1"] None)
                Scenario.heap0) eq_refl)))
           "connection refused" _ eq_refl).
Defined.

(* ------------------------------------------------------------------------- *)
(** ** Signals sent by the replica *)

Section TranscriptFacts.
Import Store.

(** X8: over any run of the replica's operations, the stop signals sent to
    the renderer are at most as many as the calls of [startSync], plus one
    when the run starts in an active session; from the initial state they
    are at most as many as the calls of [startSync]: a session is signalled
    stopped once at most. *)
Theorem stop_signals_bounded ops :
  (forall s,
     (List.length (filter isStopSignal (transcript ops s))
      <= (if isActive s then 1 else 0) + List.length (filter isStartOp ops))%nat)
  /\ (List.length (filter isStopSignal (transcript ops initial))
      <= List.length (filter isStartOp ops))%nat.
Proof.
  assert (Hall : forall s,
            (List.length (filter isStopSignal (transcript ops s))
             <= (if isActive s then 1 else 0)
                + List.length (filter isStartOp ops))%nat).
  { induction ops as [|o ops IH]; intros s; simpl.
    - lia.
    - rewrite filter_app, length_app. specialize (IH (step o s)).
      destruct o as [w|w|now payload]; simpl in *.
      + unfold startSync, requestSyncFromRenderer in *.
        destruct (isActive s) eqn:Ha; destruct w; simpl in *;
          rewrite ?Ha in IH; simpl in IH; lia.
      + unfold stopSync, sendStopSignal in *.
        destruct (isActive s) eqn:Ha; destruct w; simpl in *;
          rewrite ?Ha in IH; simpl in IH; lia.
      + unfold handleSyncPayload in *.
        destruct (isActive s) eqn:Ha; simpl in *;
          rewrite ?Ha in IH; simpl in IH; lia. }
  split; [exact Hall | exact (Hall initial)].
Qed.

End TranscriptFacts.

(* ------------------------------------------------------------------------- *)
(** ** The controller over runs of events *)

Section RunFacts.
Import Sync.

Variable gp : KnowledgeBase -> KnowledgeBaseParams.

Lemma init_initialized bridge c : hasInitialized (fst (init bridge c)) = true.
Proof. unfold init. destruct (hasInitialized c) eqn:H; simpl; auto. Qed.

Lemma initAll_initialized bridges : forall c,
  hasInitialized c = true -> snd (initAll bridges c) = 0.
Proof.
  induction bridges as [|bridge rest IH]; intros c Hc; simpl.
  - reflexivity.
  - unfold init. rewrite Hc.
    specialize (IH c Hc). destruct (initAll rest c) as [c2 n].
    simpl in *. now subst n.
Qed.

(** X9: however often [init] is called, the two IPC callbacks are registered
    once at most: at the first call of a controller not yet initialised, and
    only if the bridge is there at that call. If it is not, no later call
    registers them, bridge or no bridge. *)
Theorem init_registers_once bridges c :
  (snd (initAll bridges c) <= 1)%nat
  /\ (snd (initAll bridges c) = 1 <->
      hasInitialized c = false /\ exists rest, bridges = true :: rest).
Proof.
  destruct bridges as [|bridge rest]; simpl.
  - split; [lia|]. split; [discriminate | intros [_ [r Hr]]; discriminate Hr].
  - pose proof (initAll_initialized rest (fst (init bridge c))
                  (init_initialized bridge c)) as Hrest.
    unfold init in *. destruct (hasInitialized c) eqn:Hc; cbn [fst] in Hrest.
    + destruct (initAll rest c) as [c2 n]. simpl in *. subst n.
      split; [lia|]. split; [discriminate | intros [H _]; discriminate H].
    + destruct (initAll rest _) as [c2 n]. simpl in *. subst n.
      destruct bridge; simpl.
      * split; [lia|]. split; [intros _; split; [reflexivity | now exists rest] | reflexivity].
      * split; [lia|]. split; [discriminate|].
        intros [_ [r Hr]]. discriminate Hr.
Qed.

Lemma dispatch_stopped bridge state st c :
  isSyncing c = false ->
  exists c',
    dispatch gp bridge (Mutation state) {| store := st; service := c |}
    = ({| store := state; service := c' |}, [])
    /\ isSyncing c' = false.
Proof.
  intros Hs. unfold dispatch. cbn [store service].
  destruct (unsubscribe c).
  - unfold listener. rewrite Hs. cbn [negb]. now exists c.
  - now exists c.
Qed.

Lemma run_stopped bridge states : forall st c,
  isSyncing c = false ->
  snd (run gp bridge (map Mutation states) {| store := st; service := c |}) = [].
Proof.
  induction states as [|state states IH]; intros st c Hs; [reflexivity|].
  cbn [map run].
  destruct (dispatch_stopped bridge state st c Hs) as (c' & -> & Hs').
  specialize (IH state c' Hs').
  destruct (run gp bridge (map Mutation states) _) as [r2 out2].
  simpl in *. now subst out2.
Qed.

(** X10: once stopped, the controller pushes nothing, whatever the store
    goes through: the stop signal followed by any mutations yields no push,
    and a second stop changes nothing. *)
Theorem stopSync_silences bridge states st c :
  snd (run gp bridge (StopSignal :: map Mutation states)
         {| store := st; service := c |}) = []
  /\ stopSync (stopSync c) = stopSync c
  /\ isSyncing (stopSync c) = false
  /\ lastSignature (stopSync c) = None.
Proof.
  split; [|repeat split].
  cbn [run dispatch store service].
  pose proof (run_stopped bridge states st (stopSync c) eq_refl) as H.
  destruct (run gp bridge (map Mutation states) _) as [r2 out2].
  simpl in *. now subst out2.
Qed.

Lemma dispatch_request state c :
  exists c' p,
    dispatch gp true RequestSync {| store := state; service := c |}
    = ({| store := state; service := c' |}, [p])
    /\ isUpdate p = false
    /\ push_payload p = buildPayload gp state
    /\ push_reason p = (if isSyncing c then refresh else initial).
Proof.
  unfold dispatch, startSync, pushCurrentBases. cbn [store service].
  destruct (isSyncing c) eqn:Hs; cbn [negb orb isSyncing];
    eexists _, _; repeat split.
Qed.

Lemma dispatch_mutation state st c :
  exists c' out,
    dispatch gp true (Mutation state) {| store := st; service := c |}
    = ({| store := state; service := c' |}, out)
    /\ (List.length out <= 1)%nat
    /\ Forall (fun p => isUpdate p = true) out.
Proof.
  unfold dispatch. cbn [store service].
  destruct (unsubscribe c); [|exists c, []; repeat split; auto].
  unfold listener, pushCurrentBases.
  destruct (isSyncing c) eqn:Hs; cbn [negb]; [|exists c, []; repeat split; auto].
  destruct (same_signature (computeSignature state) (lastSignature c));
    [exists c, []; repeat split; auto|].
  cbn [isSyncing negb orb].
  eexists _, _. split; [reflexivity|]. split; [simpl; lia|].
  repeat constructor.
Qed.

(** X11: with the bridge there, every sync request from the main process is
    answered by exactly one push of the current snapshot (an initial one or a
    refresh), the stop signal by none, and a mutation by at most one update:
    over any run the pushes that are not updates are as many as the requests,
    and the updates at most as many as the mutations. *)
Theorem pushes_accounted es : forall r,
  let out := snd (run gp true es r) in
  List.length (filter (fun p => negb (isUpdate p)) out)
  = List.length (filter isRequestSync es)
  /\ (List.length (filter isUpdate out) <= List.length (filter isMutation es))%nat.
Proof.
  induction es as [|e es IH]; intros [st c]; cbv zeta; [split; reflexivity|].
  cbn [run].
  destruct e as [| |state].
  - destruct (dispatch_request st c) as (c' & p & -> & Hp & _).
    specialize (IH {| store := st; service := c' |}). cbv zeta in IH.
    destruct (run gp true es _) as [r2 out2]. cbn [snd app filter] in *.
    rewrite Hp. cbn [negb isRequestSync isMutation List.length]. lia.
  - cbn [dispatch store service].
    specialize (IH {| store := st; service := stopSync c |}). cbv zeta in IH.
    destruct (run gp true es _) as [r2 out2].
    cbn [snd app filter isRequestSync isMutation] in *.
    exact IH.
  - destruct (dispatch_mutation state st c) as (c' & out & -> & Hlen & Hall).
    specialize (IH {| store := state; service := c' |}). cbv zeta in IH.
    destruct (run gp true es _) as [r2 out2]. cbn [snd] in *.
    rewrite !filter_app, !length_app. cbn [filter isRequestSync isMutation List.length].
    assert (Hup : filter isUpdate out = out).
    { apply forallb_filter_id. apply forallb_forall.
      rewrite Forall_forall in Hall. exact Hall. }
    assert (Hnot : filter (fun p => negb (isUpdate p)) out = []).
    { clear -Hall. induction Hall as [|p out Hp _ IHo]; simpl; [reflexivity|].
      now rewrite Hp. }
    rewrite Hup, Hnot. cbn [List.length]. lia.
Qed.

(** X12: in an active session, a burst of mutations pushes an update exactly
    at the states whose signature differs from the one before (the stored
    signature, for the first), each with the snapshot of that state, in
    order. A signature that changes and changes back pushes twice. *)
Theorem pushes_follow_signature_changes last states st c :
  isSyncing c = true ->
  unsubscribe c = true ->
  lastSignature c = Some last ->
  snd (run gp true (map Mutation states) {| store := st; service := c |})
  = map (fun state => {| push_reason := update;
                         push_payload := buildPayload gp state |})
        (signatureChanges last states).
Proof.
  revert last st c.
  induction states as [|state states IH]; intros last st c Hs Hu Hl; [reflexivity|].
  cbn [map run signatureChanges dispatch store service]. rewrite Hu.
  unfold listener. rewrite Hs, Hl. cbn [negb same_signature].
  destruct (String.eqb (computeSignature state) last) eqn:Heq.
  - specialize (IH last state c Hs Hu Hl).
    destruct (run gp true (map Mutation states) _) as [r2 out2].
    simpl in *. exact IH.
  - unfold pushCurrentBases. cbn [isSyncing negb orb].
    set (c' := {| isSyncing := true; hasInitialized := hasInitialized c;
                  unsubscribe := unsubscribe c;
                  lastSignature := Some (computeSignature state) |}).
    specialize (IH (computeSignature state) state c' eq_refl Hu eq_refl).
    destruct (run gp true (map Mutation states) _) as [r2 out2].
    simpl in *. now rewrite IH.
Qed.


End RunFacts.

(** The allow-list goes from [a, c] to [a] and back: two updates. *)
Lemma pushes_follow_signature_changes_witness :
  let s0 := Sample.ownerState ["a"; "c"] Sample.liveBases in
  let s1 := Sample.ownerState ["a"] Sample.liveBases in
  let c := fst (Sync.startSync Sample.ownerParams true s0 Sync.initial Sync.fresh) in
  map Sync.push_reason
    (snd (Sync.run Sample.ownerParams true
            [Sync.Mutation s1; Sync.Mutation s1; Sync.Mutation s0]
            {| Sync.store := s0; Sync.service := c |}))
  = [Sync.update; Sync.update].
Proof.
  intros s0 s1 c.
  exact (f_equal (map Sync.push_reason)
           (pushes_follow_signature_changes Sample.ownerParams
              (Sync.computeSignature s0) [s1; s1; s0] s0 c eq_refl eq_refl eq_refl)).
Defined.

(* ------------------------------------------------------------------------- *)
(** ** What the signature sees and what the snapshot carries *)

Section SnapshotFacts.
Import Sync.

Variable gp : KnowledgeBase -> KnowledgeBaseParams.

Lemma sort_permutation l1 l2 : Permutation l1 l2 -> Js.sort l1 = Js.sort l2.
Proof.
  intros Hp. apply sort_unique; [|apply sort_sorted].
  eapply perm_trans; [apply sort_perm | exact Hp].
Qed.

Lemma Set_has_permutation l1 l2 i :
  Permutation l1 l2 -> Set_has l1 i = Set_has l2 i.
Proof.
  intros Hp. rewrite !Set_has_in.
  destruct (in_dec string_dec i l1) as [H1|H1];
    destruct (in_dec string_dec i l2) as [H2|H2]; try reflexivity.
  - exfalso. apply H2. now apply (Permutation_in i Hp).
  - exfalso. apply H1. now apply (Permutation_in i (Permutation_sym Hp)).
Qed.

Lemma filterBases_permutation bases l1 l2 :
  Permutation l1 l2 -> filterBases bases l1 = filterBases bases l2.
Proof.
  intros Hp. unfold filterBases. rewrite (Permutation_length Hp).
  destruct (List.length l2 =? 0)%nat; [reflexivity|].
  apply filter_ext. intros b. now apply Set_has_permutation.
Qed.

(** X13: the signature and the snapshot depend on the allow-list only up to
    the order of its identifiers (and not on the empty strings it may hold,
    which [getSelectedKnowledgeBaseIds] drops): two states with the same bases
    whose selected identifiers are permutations of each other have the same
    signature and the same snapshot. *)
Theorem allowlist_order_is_immaterial state1 state2 :
  stateBases state1 = stateBases state2 ->
  Permutation (getSelectedKnowledgeBaseIds state1)
              (getSelectedKnowledgeBaseIds state2) ->
  computeSignature state1 = computeSignature state2
  /\ buildPayload gp state1 = buildPayload gp state2.
Proof.
  intros Hb Hp. unfold computeSignature, buildPayload.
  rewrite Hb, (filterBases_permutation _ _ _ Hp), (sort_permutation _ _ Hp),
    (Permutation_length Hp).
  split; reflexivity.
Qed.

Lemma sameStamp_signature b1 b2 :
  sameStamp b1 b2 -> baseSignature b1 = baseSignature b2.
Proof.
  intros (Hid & Hup & Hver & Hcount).
  rewrite !baseSignature_entry. unfold Fingerprint.baseEntry.
  now rewrite Hid, Hup, Hver, Hcount.
Qed.

Lemma filterBases_sameStamp selectedIds bases1 :
  forall bases2,
    Forall2 sameStamp bases1 bases2 ->
    Forall2 sameStamp (filterBases bases1 selectedIds) (filterBases bases2 selectedIds).
Proof.
  unfold filterBases. destruct (List.length selectedIds =? 0)%nat; [auto|].
  induction 1 as [|b1 b2 l1 l2 Hb Hl IH]; simpl; [constructor|].
  rewrite <- (proj1 Hb).
  destruct (Set_has selectedIds (kb_id b1)); [constructor|]; assumption.
Qed.

(** X14: the signature reads nothing of a base but its identifier, its
    [updated_at], its [version] and the number of its items. A mutation that
    leaves the allow-list and, base by base, these four as they were leaves
    the signature as it was, so an active controller with that signature
    stored pushes nothing for it, whatever else changed in the bases (name,
    threshold, document count, models). *)
Theorem signature_reads_stamps_only bridge state1 state2 c :
  getSelectedKnowledgeBaseIds state1 = getSelectedKnowledgeBaseIds state2 ->
  Forall2 sameStamp (stateBases state1) (stateBases state2) ->
  computeSignature state1 = computeSignature state2
  /\ (isSyncing c = true ->
      lastSignature c = Some (computeSignature state1) ->
      listener gp bridge state2 c = (c, [])).
Proof.
  intros Hsel Hbases.
  assert (Hsig : computeSignature state1 = computeSignature state2).
  { unfold computeSignature. rewrite <- Hsel.
    pose proof (filterBases_sameStamp (getSelectedKnowledgeBaseIds state1)
                  _ _ Hbases) as Hf.
    assert (Hmap : map baseSignature
                     (filterBases (stateBases state1) (getSelectedKnowledgeBaseIds state1))
                   = map baseSignature
                     (filterBases (stateBases state2) (getSelectedKnowledgeBaseIds state1))).
    { induction Hf as [|b1 b2 l1 l2 Hb _ IH]; simpl; [reflexivity|].
      now rewrite (sameStamp_signature _ _ Hb), IH. }
    rewrite (Forall2_length Hf), Hmap. reflexivity. }
  split; [exact Hsig|].
  intros Hs Hl. unfold listener. rewrite Hs, Hl, Hsig. cbn [negb].
  now rewrite same_signature_refl.
Qed.

End SnapshotFacts.

(** The allow-list [c, (empty), a] against [a, c]. *)
Lemma allowlist_order_is_immaterial_witness :
  Sync.computeSignature (Sample.ownerState ["c"; ""; "a"] Sample.liveBases)
  = Sync.computeSignature (Sample.ownerState ["a"; "c"] Sample.liveBases).
Proof.
  apply (allowlist_order_is_immaterial Sample.ownerParams
           (Sample.ownerState ["c"; ""; "a"] Sample.liveBases)
           (Sample.ownerState ["a"; "c"] Sample.liveBases) eq_refl).
  apply perm_swap.
Defined.

(** The threshold of base [a] goes from none to 0.5 with its [updated_at]
    and [version] untouched: the signature stays. *)
Lemma signature_reads_stamps_only_witness :
  let retuned :=
    {| Sync.kb_id := "a"; Sync.kb_name := "a"; Sync.kb_description := None;
       Sync.kb_dimensions := Some 1536%N; Sync.kb_documentCount := Some 6%N;
       Sync.kb_chunkSize := None; Sync.kb_chunkOverlap := None;
       Sync.kb_threshold := Some 0.5%float;
       Sync.kb_created_at := 1700000000000%N;
       Sync.kb_updated_at := 1700000000100%N;
       Sync.kb_version := 1%N; Sync.kb_preprocessProvider := None;
       Sync.kb_model := Sample.ownerModel; Sync.kb_rerankModel := None;
       Sync.kb_items := None |} in
  let before := Sample.ownerState [] [Sample.ownerBase "a" 1700000000100 1 None] in
  let after := Sample.ownerState [] [retuned] in
  Sync.computeSignature before = Sync.computeSignature after
  /\ Sync.buildPayload Sample.ownerParams before
     <> Sync.buildPayload Sample.ownerParams after.
Proof.
  intros retuned before after. split.
  - apply (signature_reads_stamps_only Sample.ownerParams true before after Sync.fresh
             eq_refl).
    repeat constructor.
  - intros Heq.
    apply (f_equal (map (fun e => Types.threshold (metadata e)))) in Heq.
    discriminate Heq.
Defined.

(* ------------------------------------------------------------------------- *)
(** ** From the owner's bases to the replica *)

Section ReplicationFacts.
Import Sync.

Variable gp : KnowledgeBase -> KnowledgeBaseParams.

Lemma buildPayload_ids state :
  map entry_id (buildPayload gp state)
  = map kb_id (filterBases (stateBases state) (getSelectedKnowledgeBaseIds state)).
Proof. unfold buildPayload. now rewrite map_map. Qed.

Lemma filterBases_In bases selectedIds b :
  In b (filterBases bases selectedIds) <->
  In b bases /\ (selectedIds = [] \/ In (kb_id b) selectedIds).
Proof. rewrite filterBases_select. apply selectBases_in. Qed.

Lemma map_subsequence {A B : Type} (f : A -> B) (l l' : list A) :
  subsequence l l' -> subsequence (map f l) (map f l').
Proof. induction 1; simpl; now constructor. Qed.

Lemma filterBases_subsequence bases selectedIds :
  subsequence (filterBases bases selectedIds) bases.
Proof.
  unfold filterBases. destruct (List.length selectedIds =? 0)%nat.
  - induction bases; now constructor.
  - apply filter_subsequence.
Qed.

Lemma filterBases_named bases selectedIds :
  filterBases bases selectedIds
  = filter (fun b => named selectedIds (kb_id b)) bases.
Proof.
  unfold filterBases, named. destruct selectedIds as [|i0 rest].
  - simpl. induction bases as [|b bases IH]; simpl; [reflexivity|].
    now rewrite <- IH.
  - cbn [List.length Nat.eqb]. apply filter_ext. intros b. apply Set_has_in.
Qed.

Lemma count_occ_named {A : Type} (f : A -> string) (q : string -> bool) l i :
  count_occ string_dec (map f (filter (fun b => q (f b)) l)) i
  = if q i then count_occ string_dec (map f l) i else 0.
Proof.
  induction l as [|b l IH]; simpl.
  - now destruct (q i).
  - destruct (q (f b)) eqn:Hq; simpl.
    + destruct (string_dec (f b) i) as [Heq|Hne].
      * rewrite IH, <- Heq, Hq. reflexivity.
      * exact IH.
    + destruct (string_dec (f b) i) as [Heq|Hne].
      * rewrite IH, <- Heq, Hq. reflexivity.
      * exact IH.
Qed.

(** X15: the snapshot is the list of the live bases the allow-list names
    (of every live base, when the allow-list is empty), in the order of the
    live bases, each turned into its summary and its parameters: one entry
    for each such base, so that an identifier occurs in the snapshot as often
    as among the live bases when the allow-list names it, and not at all
    otherwise. The identifiers the warning lists are the selected ones with
    no live base; they take nothing away from the snapshot. *)
Theorem snapshot_follows_allowlist state :
  let selectedIds := getSelectedKnowledgeBaseIds state in
  let selected := filter (fun b => named selectedIds (kb_id b)) (stateBases state) in
  let live := map kb_id (stateBases state) in
  buildPayload gp state
  = map (fun b => {| metadata := toSummary b; params := gp b |}) selected
  /\ map entry_id (buildPayload gp state) = filter (named selectedIds) live
  /\ (forall i, count_occ string_dec (map entry_id (buildPayload gp state)) i
                = if named selectedIds i then count_occ string_dec live i else 0)
  /\ subsequence (map entry_id (buildPayload gp state)) live
  /\ (forall i, In i (map entry_id (buildPayload gp state)) <->
                In i live /\ (selectedIds = [] \/ In i selectedIds))
  /\ (forall i, In i (missingSelected state) <-> In i selectedIds /\ ~ In i live)
  /\ (forall i, In i selectedIds ->
                In i (missingSelected state)
                \/ In i (map entry_id (buildPayload gp state))).
Proof.
  cbv zeta.
  assert (Hexact : buildPayload gp state
            = map (fun b => {| metadata := toSummary b; params := gp b |})
                  (filter (fun b => named (getSelectedKnowledgeBaseIds state) (kb_id b))
                          (stateBases state))).
  { unfold buildPayload. now rewrite filterBases_named. }
  assert (Hids : forall i,
            In i (map entry_id (buildPayload gp state)) <->
            In i (map kb_id (stateBases state))
            /\ (getSelectedKnowledgeBaseIds state = []
                \/ In i (getSelectedKnowledgeBaseIds state))).
  { intros i. rewrite buildPayload_ids, !in_map_iff. split.
    - intros (b & <- & Hb). apply filterBases_In in Hb. destruct Hb as [Hb Hsel].
      split; [now exists b | exact Hsel].
    - intros [(b & <- & Hb) Hsel]. exists b. split; [reflexivity|].
      now apply filterBases_In. }
  assert (Hmiss : forall i,
            In i (missingSelected state) <->
            In i (getSelectedKnowledgeBaseIds state)
            /\ ~ In i (map kb_id (stateBases state))).
  { intros i. unfold missingSelected. rewrite filter_In, negb_true_iff.
    split; intros [Hsel Hno]; (split; [exact Hsel|]).
    - intros Hin. apply in_map_iff in Hin. destruct Hin as (b & Hid & Hb).
      assert (Hex : existsb (fun base => String.eqb (kb_id base) i) (stateBases state)
                    = true).
      { apply existsb_exists. exists b. split; [exact Hb|]. now apply String.eqb_eq. }
      congruence.
    - destruct (existsb _ (stateBases state)) eqn:Hex; [|reflexivity].
      exfalso. apply Hno. apply existsb_exists in Hex.
      destruct Hex as (b & Hb & Heq). apply String.eqb_eq in Heq.
      apply in_map_iff. now exists b. }
  split; [exact Hexact|].
  split.
  { rewrite buildPayload_ids, filterBases_named.
    generalize (stateBases state). intros l.
    induction l as [|b l IH]; simpl; [reflexivity|].
    destruct (named (getSelectedKnowledgeBaseIds state) (kb_id b)); simpl;
      now rewrite IH. }
  split.
  { intros i. rewrite buildPayload_ids, filterBases_named.
    apply (count_occ_named kb_id (named (getSelectedKnowledgeBaseIds state))). }
  split; [|split; [exact Hids | split; [exact Hmiss|]]].
  - rewrite buildPayload_ids. apply map_subsequence, filterBases_subsequence.
  - intros i Hsel.
    destruct (in_dec string_dec i (map kb_id (stateBases state))) as [Hlive|Hno].
    + right. apply Hids. auto.
    + left. apply Hmiss. auto.
Qed.

Lemma JsMap_get_None {V : Type} (k : string) (m : JsMap.t V) :
  ~ In k (JsMap.keys m) -> JsMap.get k m = None.
Proof.
  induction m as [|[k0 v0] m IH]; simpl; intros Hout; [reflexivity|].
  destruct (String.eqb_spec k0 k) as [Heq|Hne].
  - exfalso. apply Hout. now left.
  - apply IH. intros Hin. apply Hout. now right.
Qed.

Lemma NoDup_subsequence {A : Type} (l l' : list A) :
  subsequence l l' -> NoDup l' -> NoDup l.
Proof.
  induction 1 as [|x l l' Hsub IH|x l l' Hsub IH]; intros Hnd.
  - constructor.
  - inversion Hnd as [|? ? Hout Hnd']; subst. constructor; [|now apply IH].
    intros Hin. apply Hout. clear -Hsub Hin.
    induction Hsub as [|y l l' Hs IHs|y l l' Hs IHs]; simpl in *; [tauto| |].
    + destruct Hin; auto.
    + right. now apply IHs.
  - inversion Hnd; subst. now apply IH.
Qed.

(** X16: from the owner to the replica and back. When the live bases have
    pairwise distinct identifiers and the session is active, pushing the
    snapshot of a state leaves the replica listing exactly the summaries of
    the selected bases, in their order; every selected base is fetched by its
    identifier, with its summary and the params [getKnowledgeBaseParams] gives
    for it; and an identifier that is not selected or not live fetches
    nothing. *)
Theorem replica_mirrors_owner now state s :
  NoDup (map kb_id (stateBases state)) ->
  Store.isActive s = true ->
  let selected :=
    filterBases (stateBases state) (getSelectedKnowledgeBaseIds state) in
  let s' := fst (Store.handleSyncPayload now (buildPayload gp state) s) in
  Store.getBases s' = map toSummary selected
  /\ (forall b, In b selected ->
        Store.getBase (kb_id b) s'
        = Some {| metadata := toSummary b; params := gp b |})
  /\ (forall i, ~ In i (map kb_id selected) -> Store.getBase i s' = None).
Proof.
  intros Hnd Ha. cbv zeta.
  rewrite (handleSyncPayload_active _ _ _ Ha). cbn [fst].
  assert (Hdistinct : NoDup (map entry_id (buildPayload gp state))).
  { rewrite buildPayload_ids.
    eapply NoDup_subsequence; [|exact Hnd].
    apply map_subsequence, filterBases_subsequence. }
  assert (Hmap : Store.setAll (buildPayload gp state) JsMap.empty
                 = map (fun e => (entry_id e, e)) (buildPayload gp state)).
  { now rewrite setAll_distinct. }
  unfold Store.getBases, Store.getBase, JsMap.values. cbn [Store.bases].
  rewrite Hmap. split; [|split].
  - unfold buildPayload. rewrite !map_map. reflexivity.
  - intros b Hb. apply JsMap_In_get.
    + unfold JsMap.keys. rewrite map_map. exact Hdistinct.
    + apply in_map_iff. exists {| metadata := toSummary b; params := gp b |}.
      split; [reflexivity|]. unfold buildPayload. apply in_map_iff. now exists b.
  - intros i Hout. apply JsMap_get_None.
    intros Hin. apply Hout. rewrite <- buildPayload_ids.
    unfold JsMap.keys in Hin. rewrite map_map in Hin. exact Hin.
Qed.

End ReplicationFacts.

(** Two live bases that share the identifier [a], with [b] between them,
    under the allow-list [a]: the snapshot holds both, in their order, and
    leaves [b] out. *)
Lemma snapshot_follows_allowlist_witness :
  let first := Sample.ownerBase "a" 1700000000100 1 None in
  let second := Sample.ownerBase "a" 1700000000400 4 (Some []) in
  let state :=
    Sample.ownerState ["a"]
      [first; Sample.ownerBase "b" 1700000000200 2 None; second] in
  Sync.buildPayload Sample.ownerParams state
  = [ {| metadata := Sync.toSummary first; params := Sample.ownerParams first |};
      {| metadata := Sync.toSummary second; params := Sample.ownerParams second |} ]
  /\ map entry_id (Sync.buildPayload Sample.ownerParams state) = ["a"; "a"]
  /\ count_occ string_dec
       (map entry_id (Sync.buildPayload Sample.ownerParams state)) "a" = 2
  /\ count_occ string_dec
       (map entry_id (Sync.buildPayload Sample.ownerParams state)) "b" = 0.
Proof.
  intros first second state.
  destruct (snapshot_follows_allowlist Sample.ownerParams state)
    as (Hexact & Hid & Hcount & _).
  split; [exact Hexact|]. split; [exact Hid|].
  split; [exact (Hcount "a") | exact (Hcount "b")].
Defined.

(** The allow-list [a, ghost] over the live bases [a, b, c]: the replica
    ends with [a] alone; [ghost] fetches nothing. *)
Lemma replica_mirrors_owner_witness :
  let state := Sample.ownerState ["a"; "ghost"] Sample.liveBases in
  let s' := fst (Store.handleSyncPayload 1700000000002
                   (Sync.buildPayload Sample.ownerParams state)
                   (Sample.activeStore [Sample.kb1])) in
  map id (Store.getBases s') = ["a"]
  /\ Store.getBase "ghost" s' = None
  /\ Sync.missingSelected state = ["ghost"].
Proof.
  intros state s'.
  assert (Hnd : NoDup (map Sync.kb_id (Sync.stateBases state))).
  { repeat constructor; simpl; intuition discriminate. }
  destruct (replica_mirrors_owner Sample.ownerParams 1700000000002 state
              (Sample.activeStore [Sample.kb1]) Hnd eq_refl) as (Hlist & _ & Hnone).
  split; [|split; [|reflexivity]].
  - exact (f_equal (map id) Hlist).
  - apply Hnone. simpl. intuition discriminate.
Defined.

(* ------------------------------------------------------------------------- *)
(** ** The log of a search *)

Section SearchLogFacts.
Import Api Search.

Variable DEFAULT_KNOWLEDGE_DOCUMENT_COUNT : N.
Variable DEFAULT_KNOWLEDGE_THRESHOLD : float.
Variable MAX_KNOWLEDGE_TOP_K : N.
Variable World : Type.
Variable exn : Type.
Variable KnowledgeService_search :
  World -> string -> KnowledgeBaseParams -> (exn + list KnowledgeSearchResult) * World.
Variable KnowledgeService_rerank :
  World -> string -> KnowledgeBaseParams -> list KnowledgeSearchResult ->
  (exn + list KnowledgeSearchResult) * World.

Local Notation allowedResults :=
  (Search.allowedResults DEFAULT_KNOWLEDGE_DOCUMENT_COUNT MAX_KNOWLEDGE_TOP_K).
Local Notation filtered := (Search.filtered DEFAULT_KNOWLEDGE_THRESHOLD).
Local Notation searchBase :=
  (Search.searchBase DEFAULT_KNOWLEDGE_DOCUMENT_COUNT DEFAULT_KNOWLEDGE_THRESHOLD
     MAX_KNOWLEDGE_TOP_K World exn KnowledgeService_search KnowledgeService_rerank).
Local Notation forEach :=
  (Search.forEach DEFAULT_KNOWLEDGE_DOCUMENT_COUNT DEFAULT_KNOWLEDGE_THRESHOLD
     MAX_KNOWLEDGE_TOP_K World exn KnowledgeService_search KnowledgeService_rerank).
Local Notation search :=
  (Search.search DEFAULT_KNOWLEDGE_DOCUMENT_COUNT DEFAULT_KNOWLEDGE_THRESHOLD
     MAX_KNOWLEDGE_TOP_K World exn KnowledgeService_search KnowledgeService_rerank).
Local Notation served :=
  (servedBy DEFAULT_KNOWLEDGE_DOCUMENT_COUNT DEFAULT_KNOWLEDGE_THRESHOLD
     MAX_KNOWLEDGE_TOP_K (exn := exn)).

(** How a log ends for an outcome: every call returned, or every call but
    the last returned and the last threw what the search throws. *)
Definition endsWith {A : Type} (out : failure exn + A) (new : list (call exn)) : Prop :=
  match out with
  | inr _ => Forall succeeded new
  | inl f =>
      exists e prefix c,
        f = CollaboratorError e /\ new = prefix ++ [c]
        /\ returned c = inl e /\ Forall succeeded prefix
  end.

(** What one pass of the loop body adds to the log. *)
Lemma searchBase_log payload request (h : Heap World exn) out h' :
  searchBase payload request h = (out, h') ->
  exists new,
    calls h' = calls h ++ new
    /\ retrievals new = 1
    /\ (reranks new <= 1)%nat
    /\ Forall (fun c => callQuery c = searchQuery payload) new
    /\ endsWith out new.
Proof.
  rewrite searchBase_run. cbv zeta.
  destruct (KnowledgeService_search (world h) (searchQuery payload) (params request))
    as [[e|ragResults] w1]; cbn [fst snd].
  - intros H. inversion H; subst; clear H. cbn [calls].
    eexists. split; [reflexivity|].
    split; [reflexivity|]. split; [cbv; lia|]. split; [repeat constructor|].
    exists e, [], (SearchCall (searchQuery payload) (params request) (inl e)).
    repeat split. constructor.
  - destruct (shouldRerank request (filtered payload request ragResults)).
    + destruct (KnowledgeService_rerank w1 (searchQuery payload) (params request)
                  (filtered payload request ragResults)) as [[e|ranked] w2];
        cbn [fst snd]; intros H; inversion H; subst; clear H; cbn [calls];
        rewrite <- app_assoc; eexists; (split; [reflexivity|]);
        (split; [reflexivity|]); (split; [cbv; lia|]);
        (split; [repeat constructor|]).
      * exists e, [SearchCall (searchQuery payload) (params request) (inr ragResults)],
          (RerankCall (searchQuery payload) (params request)
             (filtered payload request ragResults) (inl e)).
        repeat split. repeat constructor. now exists ragResults.
      * repeat constructor; [now exists ragResults | now exists ranked].
    + intros H. inversion H; subst; clear H. cbn [calls].
      eexists. split; [reflexivity|].
      split; [reflexivity|]. split; [cbv; lia|]. split; [repeat constructor|].
      repeat constructor. now exists ragResults.
Qed.

Lemma retrievals_app (l1 l2 : list (call exn)) :
  retrievals (l1 ++ l2) = retrievals l1 + retrievals l2.
Proof. unfold retrievals. now rewrite filter_app, length_app. Qed.

Lemma reranks_app (l1 l2 : list (call exn)) :
  reranks (l1 ++ l2) = reranks l1 + reranks l2.
Proof. unfold reranks. now rewrite filter_app, length_app. Qed.

(** What the whole loop adds to the log. *)
Lemma forEach_log payload requests : forall (h : Heap World exn) out h',
  forEach payload requests h = (out, h') ->
  exists new,
    calls h' = calls h ++ new
    /\ (retrievals new <= List.length requests)%nat
    /\ (reranks new <= retrievals new)%nat
    /\ Forall (fun c => callQuery c = searchQuery payload) new
    /\ endsWith out new
    /\ (forall items, out = inr items ->
          retrievals new = List.length requests
          /\ List.length items = List.length requests).
Proof.
  induction requests as [|request rest IH]; intros h out h'.
  - cbn [Search.forEach]. unfold ret. intros H. inversion H; subst; clear H.
    exists []. rewrite app_nil_r.
    split; [reflexivity|]. split; [cbv; lia|]. split; [cbv; lia|].
    split; [constructor|]. split; [constructor|].
    intros its Hi. inversion Hi. split; reflexivity.
  - cbn [Search.forEach]. unfold bind at 1.
    destruct (searchBase payload request h) as [[f|item] h1] eqn:H1;
      apply searchBase_log in H1;
      destruct H1 as (new1 & Hc1 & Hs1 & Hr1 & Hq1 & Hend1).
    + intros H. inversion H; subst; clear H.
      exists new1. repeat split; auto; try (simpl; lia); discriminate.
    + unfold bind at 1.
      destruct (forEach payload rest h1) as [[f|items] h2] eqn:H2;
        apply IH in H2;
        destruct H2 as (new2 & Hc2 & Hs2 & Hr2 & Hq2 & Hend2 & Hok2);
        unfold ret; intros H; inversion H; subst; clear H;
        exists (new1 ++ new2); rewrite Hc2, Hc1, <- app_assoc;
        rewrite retrievals_app, reranks_app;
        (split; [reflexivity|]); (split; [simpl; lia|]); (split; [lia|]);
        (split; [now apply Forall_app|]).
      * split; [|discriminate].
        destruct Hend2 as (e & prefix & c & -> & -> & Hc & Hp).
        exists e, (new1 ++ prefix), c. rewrite app_assoc.
        repeat split; auto. apply Forall_app. split; assumption.
      * split; [apply Forall_app; split; assumption|].
        intros items' Hi. inversion Hi; subst.
        destruct (Hok2 items eq_refl) as [Hn Hl]. simpl. lia.
Qed.

(** X17: the calls of a [search]. Retrieval is called once at most for each
    resolved base and rerank no more often than retrieval; every call carries
    the effective query; when [search] returns, retrieval was called exactly
    once for each resolved base and the response has one item for each. *)
Theorem search_calls_accounted s payload (h : Heap World exn) out h' :
  search s payload h = (out, h') ->
  exists new,
    calls h' = calls h ++ new
    /\ (retrievals new <= List.length (resolve s (knowledge_base_ids payload)))%nat
    /\ (reranks new <= retrievals new)%nat
    /\ Forall (fun c => callQuery c = searchQuery payload) new
    /\ (forall response, out = inr response ->
          retrievals new = List.length (resolve s (knowledge_base_ids payload))
          /\ List.length (data response)
             = List.length (resolve s (knowledge_base_ids payload))).
Proof.
  rewrite search_run.
  destruct (negb (Store.isSyncActive s) || negb (Store.hasBases s)).
  { intros H. inversion H; subst. exists []. rewrite app_nil_r.
    split; [reflexivity|]. split; [cbv; lia|]. split; [cbv; lia|].
    split; [constructor | discriminate]. }
  destruct (resolve s (knowledge_base_ids payload)) as [|request rest] eqn:Hres.
  { intros H. inversion H; subst. exists []. rewrite app_nil_r.
    split; [reflexivity|]. split; [cbv; lia|]. split; [cbv; lia|].
    split; [constructor | discriminate]. }
  destruct (forEach payload (request :: rest) h) as [o h1] eqn:Hloop.
  apply forEach_log in Hloop.
  destruct Hloop as (new & Hc & Hs & Hr & Hq & _ & Hok).
  destruct o as [f|items]; intros H; inversion H; subst; clear H;
    exists new; (split; [exact Hc|]); (split; [exact Hs|]);
    (split; [exact Hr|]); (split; [exact Hq|]); [discriminate|].
  intros response Hi. inversion Hi; subst. cbn [data].
  exact (Hok items eq_refl).
Qed.

(** X18: a [search] stops at the first collaborator that throws and throws
    what that collaborator threw: when it fails with a collaborator's error,
    the call that threw it is the last of the log and every call before it
    returned; when it returns, every call returned. *)
Theorem search_stops_at_first_failure s payload (h : Heap World exn) out h' :
  search s payload h = (out, h') ->
  match out with
  | inr _ => exists new, calls h' = calls h ++ new /\ Forall succeeded new
  | inl StoreNotReady => h' = h
  | inl NoMatchingBases => h' = h
  | inl (CollaboratorError e) =>
      exists prefix c,
        calls h' = calls h ++ prefix ++ [c]
        /\ returned c = inl e /\ Forall succeeded prefix
  end.
Proof.
  rewrite search_run.
  destruct (negb (Store.isSyncActive s) || negb (Store.hasBases s)).
  { intros H. inversion H; subst. reflexivity. }
  destruct (resolve s (knowledge_base_ids payload)) as [|request rest].
  { intros H. inversion H; subst. reflexivity. }
  destruct (forEach payload (request :: rest) h) as [o h1] eqn:Hloop.
  apply forEach_log in Hloop.
  destruct Hloop as (new & Hc & _ & _ & _ & Hend & _).
  destruct o as [f|items]; intros H; inversion H; subst; clear H.
  - destruct Hend as (e & prefix & c & -> & -> & Hret & Hp).
    exists prefix, c. auto.
  - exists new. auto.
Qed.

End SearchLogFacts.

(** Two bases, one of them reranked: two retrievals and one rerank. *)
Lemma search_calls_accounted_witness :
  let outcome :=
    Scenario.run Scenario.reverse [Sample.kb1; Scenario.kbRerank]
      (Scenario.request ["kb-1"; "nowhere"; "kb-r"] None) in
  exists new,
    Search.calls (snd outcome) = new
    /\ retrievals new = 2 /\ reranks new = 1.
Proof.
  intros outcome.
  destruct (search_calls_accounted Scenario.defaultCount Scenario.defaultThreshold
              Scenario.maxTopK unit string Scenario.retrieve Scenario.reverse
              (Sample.activeStore [Sample.kb1; Scenario.kbRerank])
              (Scenario.request ["kb-1"; "nowhere"; "kb-r"] None) Scenario.heap0
              (fst outcome) (snd outcome) (surjective_pairing outcome))
    as (new & Hlog & _ & _ & _ & _).
  exists new. split; [exact Hlog|].
  cbn [Scenario.heap0 Search.calls app] in Hlog. rewrite <- Hlog.
  split; vm_compute; reflexivity.
Defined.

(** Retrieval throws on the first of two bases: one call in the log, and the
    search throws what it threw. *)
Lemma search_stops_at_first_failure_witness :
  let outcome :=
    Search.search Scenario.defaultCount Scenario.defaultThreshold Scenario.maxTopK
      unit string (failingRetrieve "connection refused") Scenario.reverse
      (Sample.activeStore [Sample.kb1; Sample.kb2])
      (Scenario.request ["kb-1"; "kb-2"] None) Scenario.heap0 in
  fst outcome = inl (Search.CollaboratorError "connection refused")
  /\ exists prefix c,
       Search.calls (snd outcome) = prefix ++ [c]
       /\ returned c = inl "connection refused".
Proof.
  intros outcome. split; [reflexivity|].
  pose proof (search_stops_at_first_failure Scenario.defaultCount
                Scenario.defaultThreshold Scenario.maxTopK unit string
                (failingRetrieve "connection refused") Scenario.reverse
                (Sample.activeStore [Sample.kb1; Sample.kb2])
                (Scenario.request ["kb-1"; "kb-2"] None) Scenario.heap0
                (inl (Search.CollaboratorError "connection refused")) (snd outcome)
                eq_refl) as (prefix & c & Hlog & Hret & _).
  exists prefix, c. split; [exact Hlog | exact Hret].
Defined.

(* ------------------------------------------------------------------------- *)
(** ** The response and the limits *)

Section ResponseFacts.
Import Api Search.

Variable DEFAULT_KNOWLEDGE_DOCUMENT_COUNT : N.
Variable DEFAULT_KNOWLEDGE_THRESHOLD : float.
Variable MAX_KNOWLEDGE_TOP_K : N.
Variable World : Type.
Variable exn : Type.
Variable KnowledgeService_search :
  World -> string -> KnowledgeBaseParams -> (exn + list KnowledgeSearchResult) * World.
Variable KnowledgeService_rerank :
  World -> string -> KnowledgeBaseParams -> list KnowledgeSearchResult ->
  (exn + list KnowledgeSearchResult) * World.

Local Notation allowedResults :=
  (Search.allowedResults DEFAULT_KNOWLEDGE_DOCUMENT_COUNT MAX_KNOWLEDGE_TOP_K).
Local Notation limitOverride := (Search.limitOverride MAX_KNOWLEDGE_TOP_K).
Local Notation search :=
  (Search.search DEFAULT_KNOWLEDGE_DOCUMENT_COUNT DEFAULT_KNOWLEDGE_THRESHOLD
     MAX_KNOWLEDGE_TOP_K World exn KnowledgeService_search KnowledgeService_rerank).
Local Notation served :=
  (servedBy DEFAULT_KNOWLEDGE_DOCUMENT_COUNT DEFAULT_KNOWLEDGE_THRESHOLD
     MAX_KNOWLEDGE_TOP_K (exn := exn)).

Lemma resolve_ids s ids :
  keyedById (Store.bases s) ->
  map entry_id (resolve s ids) = filter (fun i => isSome (Store.getBase i s)) ids.
Proof.
  intros [_ Hall]. induction ids as [|i ids IH]; simpl; [reflexivity|].
  destruct (Store.getBase i s) as [e|] eqn:Hget; simpl; [|exact IH].
  rewrite IH. f_equal. unfold Store.getBase in Hget.
  apply JsMap_get_In in Hget. rewrite Forall_forall in Hall.
  symmetry. exact (Hall _ Hget).
Qed.

Lemma served_ids payload log requests items :
  Forall2 (served payload log) requests items ->
  map knowledge_base_id items = map entry_id requests
  /\ map knowledge_base_name items = map (fun e => name (metadata e)) requests.
Proof.
  induction 1 as [|request item requests items Hs _ IH]; simpl; [split; reflexivity|].
  destruct Hs as (ragResults & ranked & _ & -> & _). destruct IH as [-> ->].
  split; reflexivity.
Qed.

(** X19: in a reachable state, the response of a [search] has one item for
    each requested identifier the replica holds and none for the others, in
    the order of the request, an identifier requested twice being served
    twice; each item carries the identifier and the name of its base. *)
Theorem response_follows_request s payload (h : Heap World exn) response h' :
  Store.reachable s ->
  search s payload h = (inr response, h') ->
  map knowledge_base_id (data response)
  = filter (fun i => isSome (Store.getBase i s)) (knowledge_base_ids payload)
  /\ map knowledge_base_name (data response)
     = map (fun e => name (metadata e)) (resolve s (knowledge_base_ids payload))
  /\ (1 <= List.length (data response) <= List.length (knowledge_base_ids payload))%nat.
Proof.
  intros Hreach Hrun.
  pose proof (reachable_keyedById s Hreach) as Hkeyed.
  assert (Hne : resolve s (knowledge_base_ids payload) <> []).
  { intros Hnil. rewrite search_run, Hnil in Hrun.
    destruct (negb (Store.isSyncActive s) || negb (Store.hasBases s));
      discriminate Hrun. }
  apply search_response in Hrun. destruct Hrun as (new & _ & Hserved).
  destruct (served_ids payload new _ _ Hserved) as [Hids Hnames].
  rewrite Hids, (resolve_ids s _ Hkeyed).
  split; [reflexivity|]. split; [exact Hnames|].
  rewrite <- (length_map knowledge_base_id), Hids, length_map.
  split.
  - destruct (resolve s (knowledge_base_ids payload)); [congruence | simpl; lia].
  - rewrite <- (length_map entry_id), (resolve_ids s _ Hkeyed). apply filter_length_le.
Qed.

(** X20: a non-zero [top_k] bounds every item of the response by
    [min(top_k, MAX_KNOWLEDGE_TOP_K)], whatever the bases' [documentCount].
    The cap is on the override alone: a [top_k] that is absent or 0 leaves
    each base to its own [documentCount], however large. *)
Theorem top_k_caps_the_override_only payload :
  (forall k, top_k payload = Some k -> k <> 0%N ->
     forall s (h : Heap World exn) response h',
       search s payload h = (inr response, h') ->
       Forall (fun item =>
                 (List.length (results item)
                  <= N.to_nat (N.min k MAX_KNOWLEDGE_TOP_K))%nat
                 /\ (List.length (results item) <= N.to_nat MAX_KNOWLEDGE_TOP_K)%nat)
              (data response))
  /\ (limitOverride payload = None <->
      top_k payload = None \/ top_k payload = Some 0%N)
  /\ (limitOverride payload = None ->
      forall request d,
        documentCount (metadata request) = Some d ->
        allowedResults payload request = d).
Proof.
  split; [|split].
  - intros k Hk Hnz s h response h' Hrun.
    apply search_response in Hrun. destruct Hrun as (new & _ & Hserved).
    assert (Hlimit : forall request, allowedResults payload request
                                     = N.min k MAX_KNOWLEDGE_TOP_K).
    { intros request. unfold Search.allowedResults, Search.limitOverride.
      rewrite Hk. destruct (N.eqb_spec k 0); [contradiction | reflexivity]. }
    induction Hserved as [|request item requests items Hs _ IH]; constructor;
      [|exact IH].
    destruct Hs as (ragResults & ranked & _ & -> & _). cbn [results itemOf].
    rewrite Hlimit.
    pose proof (slice0_length (N.min k MAX_KNOWLEDGE_TOP_K) ranked) as Hlen.
    split; [exact Hlen | lia].
  - unfold Search.limitOverride. destruct (top_k payload) as [k|].
    + destruct (N.eqb_spec k 0) as [->|Hne].
      * split; auto.
      * split; [discriminate|]. intros [H|H]; [discriminate | congruence].
    + split; auto.
  - intros Hnone request d Hd. unfold Search.allowedResults.
    now rewrite Hnone, Hd.
Qed.

(** X21: what the schema guarantees to [search]. For a request it accepts,
    the effective query is not empty and has at most 2000 characters, there
    is at least one requested identifier and none is empty, and the limit
    override, when there is one, is [top_k] itself: the cap never bites. *)
Theorem schema_guarantees payload :
  ApiKnowledgeSearchSchema MAX_KNOWLEDGE_TOP_K payload = true ->
  searchQuery payload <> EmptyString
  /\ (String.length (searchQuery payload) <= 2000)%nat
  /\ knowledge_base_ids payload <> []
  /\ Forall (fun i => i <> EmptyString) (knowledge_base_ids payload)
  /\ limitOverride payload = top_k payload
  /\ forall k, top_k payload = Some k -> (1 <= k <= MAX_KNOWLEDGE_TOP_K)%N.
Proof.
  unfold ApiKnowledgeSearchSchema. intros H.
  apply andb_prop in H; destruct H as [H Htopk].
  apply andb_prop in H; destruct H as [H Hthr].
  apply andb_prop in H; destruct H as [H Hrw].
  apply andb_prop in H; destruct H as [H Hcount].
  apply andb_prop in H; destruct H as [Hquery Hids].
  assert (Hwithin : forall str, within 1 2000 str = true ->
            str <> EmptyString /\ (String.length str <= 2000)%nat).
  { intros str Hw. unfold within in Hw. apply andb_prop in Hw.
    destruct Hw as [Hw1 Hw2]. apply Nat.leb_le in Hw1. apply Nat.leb_le in Hw2.
    split; [|exact Hw2]. intros ->. simpl in Hw1. lia. }
  split; [|split].
  - unfold searchQuery. destruct (rewrite payload) as [r|].
    + cbn [opt_all] in Hrw.
      destruct (Js.truthy (Js.trim r));
        [exact (proj1 (Hwithin r Hrw)) | exact (proj1 (Hwithin _ Hquery))].
    + exact (proj1 (Hwithin _ Hquery)).
  - unfold searchQuery. destruct (rewrite payload) as [r|].
    + cbn [opt_all] in Hrw.
      destruct (Js.truthy (Js.trim r));
        [exact (proj2 (Hwithin r Hrw)) | exact (proj2 (Hwithin _ Hquery))].
    + exact (proj2 (Hwithin _ Hquery)).
  - split.
    { intros Hnil. rewrite Hnil in Hcount. discriminate Hcount. }
    split.
    { apply Forall_forall. intros i Hi.
      rewrite forallb_forall in Hids. specialize (Hids i Hi).
      apply Nat.leb_le in Hids. intros ->. simpl in Hids. lia. }
    assert (Htop : forall k, top_k payload = Some k ->
              (1 <= k <= MAX_KNOWLEDGE_TOP_K)%N).
    { intros k Hk. rewrite Hk in Htopk. cbn [opt_all] in Htopk.
      apply andb_prop in Htopk. destruct Htopk as [Ht1 Ht2].
      apply N.ltb_lt in Ht1. apply N.leb_le in Ht2. lia. }
    split; [|exact Htop].
    unfold Search.limitOverride. destruct (top_k payload) as [k|]; [|reflexivity].
    destruct (Htop k eq_refl) as [Hk1 Hk2].
    destruct (N.eqb_spec k 0); [lia|]. f_equal. lia.
Qed.

End ResponseFacts.

(** Four identifiers requested, one unknown and one twice: three items, in
    the order of the request. *)
Lemma response_follows_request_witness :
  let s := Store.step (Store.OpSyncBases 1700000000002 [Sample.kb1; Sample.kb2])
             (Store.step (Store.OpStartSync true) Store.initial) in
  let outcome :=
    Search.search Scenario.defaultCount Scenario.defaultThreshold Scenario.maxTopK
      unit string Scenario.retrieve Scenario.reverse s
      (Scenario.request ["kb-2"; "missing"; "kb-1"; "kb-2"] None) Scenario.heap0 in
  exists response,
    fst outcome = inr response
    /\ map Api.knowledge_base_id (Api.data response) = ["kb-2"; "kb-1"; "kb-2"].
Proof.
  intros s outcome.
  assert (Hs : Store.reachable s)
    by (do 2 apply Store.reach_step; apply Store.reach_initial).
  assert (Hrun : exists response, outcome = (inr response, snd outcome)).
  { eexists. vm_compute. reflexivity. }
  destruct Hrun as (response & Hrun).
  exists response. split; [now rewrite Hrun|].
  exact (proj1 (response_follows_request Scenario.defaultCount
                  Scenario.defaultThreshold Scenario.maxTopK unit string
                  Scenario.retrieve Scenario.reverse s _ _ _ _ Hs Hrun)).
Defined.

(** With no [top_k], a base whose [documentCount] is 100 is allowed 100
    results, above the ceiling of 30; with [top_k] 50 it is allowed 30. *)
Lemma top_k_caps_the_override_only_witness :
  let large := Sample.entry "kb-l" "Large" (Some 100%N) None None in
  Search.allowedResults Scenario.defaultCount Scenario.maxTopK
    (Scenario.request ["kb-l"] None) large = 100%N
  /\ Search.allowedResults Scenario.defaultCount Scenario.maxTopK
       (Scenario.request ["kb-l"] (Some 50%N)) large = 30%N.
Proof.
  intros large. split; [|reflexivity].
  exact (proj2 (proj2 (top_k_caps_the_override_only Scenario.defaultCount
                         Scenario.defaultThreshold Scenario.maxTopK unit string
                         Scenario.retrieve Scenario.reverse
                         (Scenario.request ["kb-l"] None)))
           eq_refl large 100%N eq_refl).
Defined.

Lemma schema_guarantees_witness :
  let payload := Scenario.request ["kb-1"] (Some 3%N) in
  Search.searchQuery payload <> EmptyString
  /\ Search.limitOverride Scenario.maxTopK payload = Some 3%N.
Proof.
  intros payload.
  destruct (schema_guarantees Scenario.maxTopK payload eq_refl)
    as (Hq & _ & _ & _ & Hlimit & _).
  split; [exact Hq | exact Hlimit].
Defined.

(* ------------------------------------------------------------------------- *)
(** ** From the owner's settings to the search *)

Section EndToEndFacts.
Import Api Search.

Variable DEFAULT_KNOWLEDGE_DOCUMENT_COUNT : N.
Variable DEFAULT_KNOWLEDGE_THRESHOLD : float.
Variable MAX_KNOWLEDGE_TOP_K : N.
Variable gp : Sync.KnowledgeBase -> KnowledgeBaseParams.

(** X22: the owner's settings reach the search. When the live bases have
    pairwise distinct identifiers, after the snapshot of a state is pushed to
    an active replica, a request that names a selected base resolves it to
    the entry built from that base; with no overrides in the request, the
    search filters its results at the base's own threshold and keeps its own
    document count of them (the defaults when the base has none), and reranks
    under the params [getKnowledgeBaseParams] gave. *)
Theorem owner_settings_reach_search now state s b payload :
  NoDup (map Sync.kb_id (Sync.stateBases state)) ->
  Store.isActive s = true ->
  In b (Sync.filterBases (Sync.stateBases state)
          (Sync.getSelectedKnowledgeBaseIds state)) ->
  knowledge_base_ids payload = [Sync.kb_id b] ->
  let s' := fst (Store.handleSyncPayload now (Sync.buildPayload gp state) s) in
  let entry := {| metadata := Sync.toSummary b; params := gp b |} in
  resolve s' (knowledge_base_ids payload) = [entry]
  /\ (Api.threshold payload = None ->
      Search.threshold DEFAULT_KNOWLEDGE_THRESHOLD payload entry
      = match Sync.kb_threshold b with
        | Some t => t
        | None => DEFAULT_KNOWLEDGE_THRESHOLD
        end)
  /\ (top_k payload = None ->
      allowedResults DEFAULT_KNOWLEDGE_DOCUMENT_COUNT MAX_KNOWLEDGE_TOP_K payload entry
      = match Sync.kb_documentCount b with
        | Some n => n
        | None => DEFAULT_KNOWLEDGE_DOCUMENT_COUNT
        end)
  /\ rerankModelSet entry
     = match rerankApiClient (gp b) with
       | Some client => Js.truthy (ac_model client)
       | None => false
       end.
Proof.
  intros Hnd Ha Hb Hids. cbv zeta.
  assert (Hget : Store.getBase (Sync.kb_id b)
                   (fst (Store.handleSyncPayload now (Sync.buildPayload gp state) s))
                 = Some {| metadata := Sync.toSummary b; params := gp b |}).
  { rewrite (handleSyncPayload_active _ _ _ Ha). cbn [fst].
    unfold Store.getBase. cbn [Store.bases].
    assert (Hdistinct : NoDup (map entry_id (Sync.buildPayload gp state))).
    { rewrite buildPayload_ids.
      eapply NoDup_subsequence; [|exact Hnd].
      apply map_subsequence, filterBases_subsequence. }
    assert (Hmap : Store.setAll (Sync.buildPayload gp state) JsMap.empty
                   = map (fun e => (entry_id e, e)) (Sync.buildPayload gp state)).
    { now rewrite setAll_distinct. }
    rewrite Hmap. apply JsMap_In_get.
    - unfold JsMap.keys. rewrite map_map. exact Hdistinct.
    - apply in_map_iff.
      exists {| metadata := Sync.toSummary b; params := gp b |}.
      split; [reflexivity|]. unfold Sync.buildPayload. apply in_map_iff.
      now exists b. }
  split; [|split; [|split]].
  - rewrite Hids. simpl. now rewrite Hget.
  - intros Hthr. unfold Search.threshold. rewrite Hthr. simpl.
    now destruct (Sync.kb_threshold b).
  - intros Htop. unfold allowedResults, limitOverride. rewrite Htop. simpl.
    now destruct (Sync.kb_documentCount b).
  - reflexivity.
Qed.

End EndToEndFacts.

(** Base [c] of the live bases, selected by the allow-list [a, c]: it has no
    threshold of its own and a document count of 6. *)
Lemma owner_settings_reach_search_witness :
  let state := Sample.ownerState ["a"; "c"] Sample.liveBases in
  let c := Sample.ownerBase "c" 1700000000300 3
             (Some [ {| Sync.item_id := "i1" |}; {| Sync.item_id := "i2" |} ]) in
  let entry := {| metadata := Sync.toSummary c; params := Sample.ownerParams c |} in
  let payload := Scenario.request ["c"] None in
  Search.threshold Scenario.defaultThreshold payload entry = Scenario.defaultThreshold
  /\ Search.allowedResults Scenario.defaultCount Scenario.maxTopK payload entry = 6%N.
Proof.
  intros state c entry payload.
  assert (Hnd : NoDup (map Sync.kb_id (Sync.stateBases state))).
  { repeat constructor; simpl; intuition discriminate. }
  assert (Hin : In c (Sync.filterBases (Sync.stateBases state)
                        (Sync.getSelectedKnowledgeBaseIds state))).
  { simpl. right. now left. }
  destruct (owner_settings_reach_search Scenario.defaultCount Scenario.defaultThreshold
              Scenario.maxTopK Sample.ownerParams 1700000000002 state
              (Sample.activeStore []) c payload Hnd eq_refl Hin eq_refl)
    as (_ & Hthr & Hlimit & _).
  split; [exact (Hthr eq_refl) | exact (Hlimit eq_refl)].
Defined.
